(** * Shallow embedding of [employee_app.py]: biometric attendance to ERPNext check-ins.

    The program is modelled as a state-and-exception monad over a trace of
    observable events (prints, sleeps, device calls, HTTP posts), whose
    outcome may also be that the computation never returns.  External
    collaborators (the ZK device, the ERPNext roster query and the check-in
    endpoint) are section variables: oracles the program calls. *)

From Stdlib Require Import String List ZArith Lia Bool.
From Equations Require Import Equations.
Import ListNotations.
Open Scope Z_scope.

(** ** Python values and exceptions *)

Inductive py_exn :=
  | ZeroDivisionError
  | IndexError
  | DeviceError (what : string)       (** anything raised by the ZK library *)
  | RequestException.

(** The outcome of a computation of the program: it returns a value, it
    raises, or it never returns (a [while True] loop that never exits). *)
Inductive res (A : Type) :=
  | Ok (a : A)
  | Raise (e : py_exn)
  | Diverge.
Arguments Ok {A} a.
Arguments Raise {A} e.
Arguments Diverge {A}.

(** What a call into the pyzk library gives back: it returns or raises
    (every call is bounded by the device timeout). *)
Inductive zk_res (A : Type) :=
  | ZkOk (a : A)
  | ZkRaise (e : py_exn).
Arguments ZkOk {A} a.
Arguments ZkRaise {A} e.

(** ** Data model *)

(** A pyzk [Attendance] object, seen through its [__dict__]. *)
Record attendance := mk_attendance {
  uid : Z;
  user_id : string;
  timestamp : Z;          (** parsed point in time, [pd.to_datetime] *)
  status : Z;
  punch : Z
}.

(** One row of the roster returned by [fetch_employee_data]. *)
Record employee_rec := mk_employee_rec {
  e_employee : string;
  e_employee_name : string;
  e_attendance_device_id : option string   (** may be null in ERPNext *)
}.

(** One row of [result_df]: the attendance columns (with [user_id] renamed
    to [attendance_device_id] and the injected [shift]) followed by the
    employee columns, which are NaN ([None]) when the left join found no
    match. *)
Record merged := mk_merged {
  m_uid : Z;
  attendance_device_id : string;
  m_timestamp : Z;
  m_status : Z;
  m_punch : Z;
  shift : string;
  employee : option string;
  employee_name : option string
}.

(** An entry of [local_config.devices]. *)
Record device := mk_device {
  device_id : string;
  ip : string;
  port : Z
}.

(** The JSON body posted to [api/resource/Employee Checkin]. *)
Record payload := mk_payload {
  p_employee : string;
  p_time : string;
  p_shift : string
}.

(** What [requests.post] gives back: a response with a status code, or a
    [requests.exceptions.RequestException]. *)
Inductive post_outcome :=
  | HTTP (status_code : Z)
  | PostFailed.

(** The printed messages, one constructor per [print] of the source. *)
Inductive msg :=
  | MFetched (ip : string) (n : nat)                 (* line 20 *)
  | MFetchError (ip : string)                        (* line 22 *)
  | MSkipDeviceError (dev : string) (sh : string)    (* line 91 *)
  | MNoData (dev : string) (sh : string)             (* line 96 *)
  | MSkipNaN                                         (* line 138 *)
  | MSuccess (emp : string)                          (* line 158 *)
  | MFailStatus (emp : string) (code : Z)            (* line 161 *)
  | MRequestFailed (emp : string)                    (* line 166 *)
  | MGiveUp (emp : string) (max_retries : Z)         (* line 171 *)
  | MCompleted                                       (* line 205 *)
  | MProcessing (dev : string) (sh : string)         (* line 208 *)
  | MSkipping (dev : string) (sh : string)           (* line 213 *)
  | MFrame (rows : list merged).                     (* line 220 *)

Inductive event :=
  | EPrint (m : msg)
  | ESleep (secs : Z)
  | EConnect (ip : string) (port : Z) (timeout : Z)
  | EGetAttendance
  | EDisconnect
  | EFetchEmployees
  | EPost (p : payload).

(** The payloads posted in a trace, in order. *)
Fixpoint posts (tr : list event) : list payload :=
  match tr with
  | [] => []
  | EPost p :: tr' => p :: posts tr'
  | _ :: tr' => posts tr'
  end.

(** ** The monad: state is the trace, exceptions are Python exceptions *)

Definition M (A : Type) := list event -> res A * list event.

Definition ret {A} (a : A) : M A := fun tr => (Ok a, tr).
Definition raise {A} (e : py_exn) : M A := fun tr => (Raise e, tr).
Definition bind {A B} (m : M A) (k : A -> M B) : M B :=
  fun tr => match m tr with
            | (Ok a, tr') => k a tr'
            | (Raise e, tr') => (Raise e, tr')
            | (Diverge, tr') => (Diverge, tr')
            end.
Definition diverge {A} : M A := fun tr => (Diverge, tr).
Definition emit (ev : event) : M unit := fun tr => (Ok tt, tr ++ [ev]).
Definition print (m : msg) : M unit := emit (EPrint m).
Definition sleep (secs : Z) : M unit := emit (ESleep secs).

(** [try: m except Exception: h]; a computation that never returns is not
    caught. *)
Definition try_except {A} (m : M A) (h : py_exn -> M A) : M A :=
  fun tr => match m tr with
            | (Raise e, tr') => h e tr'
            | r => r
            end.

Declare Scope py_scope.
Notation "x <- m ;; k" := (bind m (fun x => k))
  (at level 61, m at next level, right associativity) : py_scope.
Notation "m ;; k" := (bind m (fun _ => k))
  (at level 61, right associativity) : py_scope.
Open Scope py_scope.

(** Python's [a % b] on non-negative ints and [xs[k]]. *)
Definition py_mod (a b : nat) : M nat :=
  if Nat.eqb b 0 then raise ZeroDivisionError else ret (Nat.modulo a b).

Definition py_getitem {A} (xs : list A) (k : nat) : M A :=
  match nth_error xs k with
  | Some x => ret x
  | None => raise IndexError
  end.

Fixpoint for_each {A} (xs : list A) (body : A -> M unit) : M unit :=
  match xs with
  | [] => ret tt
  | x :: xs' => body x ;; for_each xs' body
  end.

(** The connection attempts in a trace, in order: address, port, timeout. *)
Fixpoint connects (tr : list event) : list (string * Z * Z) :=
  match tr with
  | [] => []
  | EConnect a p t :: tr' => (a, p, t) :: connects tr'
  | _ :: tr' => connects tr'
  end.

(** The events [push_data_to_erp] can produce: POSTs, prints and sleeps. *)
Definition delivery_event (ev : event) : Prop :=
  match ev with
  | EPost _ | EPrint _ | ESleep _ => True
  | _ => False
  end.

(** An answer to a POST that makes the loop of line 153 try again. *)
Definition post_failed (o : post_outcome) : bool :=
  match o with
  | HTTP code => negb ((code =? 200) || (code =? 201))
  | PostFailed => true
  end.

(** ** [fetch_employee_data] (lines 30-80): the paginated roster query

    [erp_get limit_start] is what one pass of the [try] block sees for the
    GET with [limit_start] (the [Retry] adapter's transport retries
    included): a JSON object with a [data] list, a JSON object without it,
    or a [RequestException] (an HTTP error status from [raise_for_status],
    a transport failure, or an undecodable body).  [pd.json_normalize] of
    the flat records is the list of records itself, and the empty-roster
    DataFrame of line 78 is the empty list. *)
Inductive page_response :=
  | PageData (so_data : list employee_rec)
  | PageNoDataKey
  | PageError.

Section Pagination.

Variable erp_get : Z -> page_response.

Definition limit_page_length : Z := 1000.

(** [while True: ...] from a given [limit_start] and [all_data]; the loop
    has no bound, so its meaning is a relation: no result when it runs
    forever. *)
Inductive fetch_pages : Z -> list employee_rec -> list employee_rec -> Prop :=
  | fetch_pages_empty limit_start all_data :
      erp_get limit_start = PageData [] ->
      fetch_pages limit_start all_data all_data
  | fetch_pages_no_key limit_start all_data :
      erp_get limit_start = PageNoDataKey ->
      fetch_pages limit_start all_data all_data
  | fetch_pages_error limit_start all_data :
      erp_get limit_start = PageError ->
      fetch_pages limit_start all_data all_data
  | fetch_pages_next limit_start all_data r rs result :
      erp_get limit_start = PageData (r :: rs) ->
      fetch_pages (limit_start + limit_page_length) (all_data ++ r :: rs) result ->
      fetch_pages limit_start all_data result.

(** [fetch_employee_data() = emp_df]. *)
Definition fetch_employee_data_returns (emp_df : list employee_rec) : Prop :=
  fetch_pages 0 [] emp_df.

(** The same loop, run for at most [fuel] GETs ([None]: not finished). *)
Fixpoint fetch_pages_fuel (fuel : nat) (limit_start : Z) (all_data : list employee_rec)
    : option (list employee_rec) :=
  match fuel with
  | O => None
  | S fuel' =>
      match erp_get limit_start with
      | PageData [] | PageNoDataKey | PageError => Some all_data
      | PageData so_data =>
          fetch_pages_fuel fuel' (limit_start + limit_page_length) (all_data ++ so_data)
      end
  end.

End Pagination.

(** The three answers that end the loop of [fetch_employee_data]. *)
Definition page_stops (r : page_response) : Prop :=
  r = PageData [] \/ r = PageNoDataKey \/ r = PageError.

(** The roster queries in a trace. *)
Fixpoint roster_queries (tr : list event) : nat :=
  match tr with
  | [] => O
  | EFetchEmployees :: tr' => S (roster_queries tr')
  | _ :: tr' => roster_queries tr'
  end.

(** Whether a device call returned at least one attendance event. *)
Definition returned_events (r : res (list attendance)) : bool :=
  match r with
  | Ok (_ :: _) => true
  | _ => false
  end.

(** The non-null [attendance_device_id]s of a roster, in order. *)
Definition device_ids (emps : list employee_rec) : list string :=
  flat_map (fun r => match e_attendance_device_id r with
                     | Some d => [d]
                     | None => []
                     end) emps.

(** The JSON body built at lines 143-147 for a row with an employee. *)
Definition payload_of_row (isoformat : Z -> string) (row : merged) (emp : string)
    : payload :=
  mk_payload emp (isoformat (m_timestamp row)) (shift row).

(** [pd.notna(row['employee'])] at line 137. *)
Definition has_employee (row : merged) : bool :=
  match employee row with Some _ => true | None => false end.

(** ** A concrete configuration, used to instantiate the results below *)

Module World.
Open Scope string_scope.
Open Scope list_scope.

Definition dev1 : device := mk_device "D1" "10.0.0.1" 4370.
Definition dev2 : device := mk_device "D2" "10.0.0.2" 4370.

(** An event of user 7 at time 100, and one at time 5000. *)
Definition ev_in : attendance := mk_attendance 1 "7" 100 1 0.
Definition ev_late : attendance := mk_attendance 2 "7" 5000 1 0.

Definition roster1 : list employee_rec :=
  [mk_employee_rec "HR-EMP-0001" "Emp One" (Some "7")].

(** Connections are named by the device address. *)
Definition zk_connect_ok (ip0 : string) (p t : Z) : zk_res string := ZkOk ip0.
Definition zk_get_by_ip (c : string) : zk_res (list attendance) :=
  if String.eqb c "10.0.0.1" then ZkOk [ev_in; ev_late] else ZkOk [].
Definition zk_get_fails (c : string) : zk_res (list attendance) :=
  ZkRaise (DeviceError "timed out").
Definition zk_disconnect_ok (c : string) : zk_res unit := ZkOk tt.
Definition zk_disconnect_fails (c : string) : zk_res unit :=
  ZkRaise (DeviceError "can't disconnect").

(** A first device holding seven in-range events of user 7 (times
    101 .. 107) and [ev_late]. *)
Definition ev_at (k : Z) : attendance := mk_attendance k "7" (100 + k) 1 0.
Definition zk_get_many (c : string) : zk_res (list attendance) :=
  if String.eqb c "10.0.0.1" then ZkOk (map ev_at [1; 2; 3; 4; 5; 6; 7] ++ [ev_late])
  else ZkOk [].

Definition server_201 (n : nat) (p : payload) : post_outcome := HTTP 201.
Definition server_500 (n : nat) (p : payload) : post_outcome := HTTP 500.

(** An endpoint that answers 500 to the first POST of the run and 201 after. *)
Definition server_fail_once (n : nat) (p : payload) : post_outcome :=
  if Nat.eqb n 0 then HTTP 500 else HTTP 201.

Definition iso_stub (z : Z) : string := "1970-01-01T00:00:00".

Definition row_of (emp : option string) (ts : Z) : merged :=
  mk_merged 1 "7" ts 1 0 "S1" emp None.

(** ERPNext answering two one-record pages, then an empty page; and an
    ERPNext whose every page holds a record. *)
Definition emp1 : employee_rec := mk_employee_rec "HR-EMP-0001" "Emp One" (Some "7").
Definition emp2 : employee_rec := mk_employee_rec "HR-EMP-0002" "Emp Two" None.
Definition erp_two_pages (limit_start : Z) : page_response :=
  if Z.eqb limit_start 0 then PageData [emp1]
  else if Z.eqb limit_start 1000 then PageData [emp2]
  else PageData [].
Definition erp_endless (limit_start : Z) : page_response := PageData [emp1].

(** ERPNext answering [rows] on the first page and an empty page after. *)
Definition erp_single (rows : list employee_rec) (limit_start : Z) : page_response :=
  if Z.eqb limit_start 0 then PageData rows else PageData [].

(** A roster with two distinct device ids and a record without one, and
    an event of user 8. *)
Definition emp3 : employee_rec := mk_employee_rec "HR-EMP-0003" "Emp Three" (Some "8").
Definition roster3 : list employee_rec := [emp1; emp2; emp3].
Definition ev_other : attendance := mk_attendance 3 "8" 200 1 0.

End World.

Section Program.

(** ** Configuration ([local_config]) and external collaborators *)

Variable devices : list device.
Variable SHIFT : list string.
Variable START_DATE END_DATE : Z.     (** [pd.to_datetime(START_DATE)], ... *)

(** The pyzk device protocol: [ZK(ip, port, timeout).connect()],
    [conn.get_attendance()] and [conn.disconnect()]; each may raise. *)
Variable conn : Type.
Variable zk_connect : string -> Z -> Z -> zk_res conn.
Variable zk_get_attendance : conn -> zk_res (list attendance).
Variable zk_disconnect : conn -> zk_res unit.

(** ERPNext's roster resource: [erp_get i limit_start] is its answer to
    the GET of [limit_start] made by the roster query of cycle [i] (the
    roster may change from one cycle to the next).  [erp_roster i] is the
    outcome of that query's loop (lines 49-72): [Some emp_df] when it
    returns [emp_df], [None] when it runs forever; the loop never raises,
    since every [RequestException] ends it with the rows so far.
    [erp_roster_spec] ties the two together through [fetch_pages]. *)
Variable erp_get : nat -> Z -> page_response.
Variable erp_roster : nat -> option (list employee_rec).
Hypothesis erp_roster_spec :
  forall i emp_df, erp_roster i = Some emp_df <-> fetch_employee_data_returns (erp_get i) emp_df.

(** The check-in endpoint: the outcome of the [n]-th POST of the run. *)
Variable server : nat -> payload -> post_outcome.

(** [Timestamp.isoformat()]. *)
Variable isoformat : Z -> string.

(** ** [fetch_biometric_data] (lines 13-26) *)

Definition fetch_biometric_data (ip0 : string) (port0 timeout0 : Z)
    : M (list attendance) :=
  fun tr0 =>
    (* try: conn = zk.connect(); attendances = conn.get_attendance(); print(...)
       except Exception: print(...) *)
    let '(c_opt, attendances, tr1) :=
      let trc := tr0 ++ [EConnect ip0 port0 timeout0] in
      match zk_connect ip0 port0 timeout0 with
      | ZkRaise _ => (None, [], trc ++ [EPrint (MFetchError ip0)])
      | ZkOk c =>
          let trg := trc ++ [EGetAttendance] in
          match zk_get_attendance c with
          | ZkRaise _ => (Some c, [], trg ++ [EPrint (MFetchError ip0)])
          | ZkOk atts => (Some c, atts, trg ++ [EPrint (MFetched ip0 (length atts))])
          end
      end in
    (* finally: if conn: conn.disconnect() *)
    match c_opt with
    | None => (Ok attendances, tr1)
    | Some c =>
        match zk_disconnect c with
        | ZkOk _ => (Ok attendances, tr1 ++ [EDisconnect])
        | ZkRaise e => (Raise e, tr1 ++ [EDisconnect])
        end
    end.

(** [fetch_employee_data()] (lines 30-80), called in cycle [shift_index]. *)
Definition fetch_employee_data (shift_index : nat) : M (list employee_rec) :=
  emit EFetchEmployees ;;
  match erp_roster shift_index with
  | Some emp_df => ret emp_df
  | None => diverge
  end.

(** ** The merge and the date filter (lines 99-125) *)

Definition opt_string_eqb (a b : option string) : bool :=
  match a, b with
  | Some x, Some y => String.eqb x y
  | None, None => true
  | _, _ => false
  end.

(** [pd.merge(df, emp_df, on='attendance_device_id', how='left')] for one
    attendance row: one output row per matching roster row, in roster
    order, or a single row with NaN employee columns. *)
Definition join_matches (emps : list employee_rec) (a : attendance) : list employee_rec :=
  filter (fun r => opt_string_eqb (e_attendance_device_id r) (Some (user_id a))) emps.

Definition left_join_one (sh : string) (emps : list employee_rec) (a : attendance)
    : list merged :=
  let row e en :=
    mk_merged (uid a) (user_id a) (timestamp a) (status a) (punch a) sh e en in
  match join_matches emps a with
  | [] => [row None None]
  | ms => map (fun r => row (Some (e_employee r)) (Some (e_employee_name r))) ms
  end.

Definition left_join (sh : string) (evs : list attendance) (emps : list employee_rec)
    : list merged :=
  flat_map (left_join_one sh emps) evs.

(** The attendance columns of a merged row, [user_id] renamed back. *)
Definition merged_attendance (r : merged) : attendance :=
  mk_attendance (m_uid r) (attendance_device_id r) (m_timestamp r) (m_status r) (m_punch r).

Definition in_date_range (r : merged) : bool :=
  (START_DATE <=? m_timestamp r) && (m_timestamp r <=? END_DATE).

Definition date_filter (rows : list merged) : list merged :=
  filter in_date_range rows.

(** ** [process_and_merge_biometric_with_employee_data] (lines 83-125)

    pyzk's [Attendance.__dict__] always has a [user_id] key, so for
    non-empty data the [if 'user_id' in df.columns] test succeeds and the
    rename is the projection done by [left_join_one]. *)
Definition process_and_merge (devs : list device) (shift_index : nat)
    : M (option (list merged)) :=
  k <- py_mod shift_index (length devs) ;;
  dev <- py_getitem devs k ;;
  k' <- py_mod shift_index (length SHIFT) ;;
  sh <- py_getitem SHIFT k' ;;
  device_data <- try_except
      (d <- fetch_biometric_data (ip dev) 4370 180 ;; ret (Some d))
      (fun _ => print (MSkipDeviceError (device_id dev) sh) ;; ret None) ;;
  match device_data with
  | None => ret None
  | Some [] => print (MNoData (device_id dev) sh) ;; ret None
  | Some evs =>
      emp_df <- fetch_employee_data shift_index ;;
      ret (Some (date_filter (left_join sh evs emp_df)))
  end.

(** ** [push_data_to_erp] (lines 128-173) *)

(** [requests.post(...)]: the answer of the endpoint to the [n]-th POST,
    [n] counting every POST made so far in the run. *)
Definition post (p : payload) : M post_outcome :=
  fun tr => (Ok (server (length (posts tr)) p), tr ++ [EPost p]).

Definition status_ok (code : Z) : bool := (code =? 200) || (code =? 201).

(** [while retry_count < max_retries and not success: ...].  Every pass
    either sets [success] or increments [retry_count], so [fuel] passes
    with [fuel > max_retries] always end at the loop test. *)
Fixpoint retry_loop (max_retries : Z) (emp : string) (p : payload)
    (fuel : nat) (retry_count : Z) (success : bool) : M bool :=
  match fuel with
  | O => ret success
  | S fuel' =>
      if (retry_count <? max_retries) && negb success then
        r <- post p ;;
        match r with
        | HTTP code =>
            if status_ok code then
              print (MSuccess emp) ;;
              retry_loop max_retries emp p fuel' retry_count true
            else
              print (MFailStatus emp code) ;;
              sleep 2 ;;
              retry_loop max_retries emp p fuel' (retry_count + 1) false
        | PostFailed =>
            print (MRequestFailed emp) ;;
            sleep 2 ;;
            retry_loop max_retries emp p fuel' (retry_count + 1) false
        end
      else ret success
  end.

Definition push_row (max_retries : Z) (row : merged) : M unit :=
  match employee row with
  | None => print MSkipNaN
  | Some emp =>
      let p := mk_payload emp (isoformat (m_timestamp row)) (shift row) in
      success <- retry_loop max_retries emp p (S (Z.to_nat max_retries)) 0 false ;;
      if success then ret tt else print (MGiveUp emp max_retries)
  end.

Definition push_data_to_erp (max_retries : Z) (df : list merged) : M bool :=
  for_each df (push_row max_retries) ;;
  ret true.

(** ** [main_loop] (lines 200-225) *)

(** The body of one pass of [while True], from line 208 to line 225,
    except the increment of [shift_index]. *)
Definition cycle (shift_index : nat) : M unit :=
  k <- py_mod shift_index (length devices) ;;
  dev <- py_getitem devices k ;;
  k' <- py_mod shift_index (length SHIFT) ;;
  sh <- py_getitem SHIFT k' ;;
  print (MProcessing (device_id dev) sh) ;;
  filtered_df <- process_and_merge devices shift_index ;;
  match filtered_df with
  | None | Some [] =>
      k <- py_mod shift_index (length devices) ;;
      dev <- py_getitem devices k ;;
      k' <- py_mod shift_index (length SHIFT) ;;
      sh <- py_getitem SHIFT k' ;;
      print (MSkipping (device_id dev) sh) ;;
      sleep 5
  | Some rows =>
      let head5 := firstn 5 rows in
      print (MFrame head5) ;;
      push_data_to_erp 2 head5 ;;
      sleep 5
  end.

Equations main_loop_from (shift_index : nat) (tr : list event) : res unit * list event
  by wf (length devices - shift_index)%nat lt :=
  main_loop_from shift_index tr with le_lt_dec (length devices) shift_index => {
    | left _ => (Ok tt, tr ++ [EPrint MCompleted]);
    | right _ with cycle shift_index tr => {
        | (Ok _, tr') => main_loop_from (S shift_index) tr';
        | (Raise e, tr') => (Raise e, tr');
        | (Diverge, tr') => (Diverge, tr') } }.
Next Obligation. lia. Qed.

Definition main_loop : M unit := main_loop_from 0.

(** A computation that does not read the trace and appends the same events
    to it whatever it was. *)
Definition oblivious {A} (m : M A) : Prop :=
  exists r seg, forall tr, m tr = (r, tr ++ seg).

(** ** Helper lemmas *)

Lemma posts_app (a b : list event) : posts (a ++ b) = posts a ++ posts b.
Proof.
  induction a as [|ev a IH]; [reflexivity|].
  destruct ev; simpl; rewrite ?IH; reflexivity.
Qed.

Lemma bind_unfold {A B} (m : M A) (k : A -> M B) tr :
  bind m k tr = match m tr with
                | (Ok a, tr') => k a tr'
                | (Raise e, tr') => (Raise e, tr')
                | (Diverge, tr') => (Diverge, tr')
                end.
Proof. reflexivity. Qed.

(** The retry loop never raises (a [RequestException] is caught by the
    [except] of line 165) and only appends to the trace. *)
Lemma retry_loop_ok mr emp p fuel : forall rc s tr,
  exists b seg, retry_loop mr emp p fuel rc s tr = (Ok b, tr ++ seg).
Proof.
  induction fuel as [|fuel IH]; intros rc s tr; simpl.
  - exists s, []. rewrite app_nil_r. reflexivity.
  - destruct ((rc <? mr) && negb s).
    2: { exists s, []. rewrite app_nil_r. reflexivity. }
    unfold bind, post, print, sleep, emit.
    destruct (server _ p) as [code|]; [destruct (status_ok code)|].
    + destruct (IH rc true ((tr ++ [EPost p]) ++ [EPrint (MSuccess emp)]))
        as (b & seg & ->).
      exists b, (EPost p :: EPrint (MSuccess emp) :: seg).
      rewrite <- !app_assoc. reflexivity.
    + destruct (IH (rc + 1) false
                  (((tr ++ [EPost p]) ++ [EPrint (MFailStatus emp code)]) ++ [ESleep 2]))
        as (b & seg & ->).
      exists b, (EPost p :: EPrint (MFailStatus emp code) :: ESleep 2 :: seg).
      rewrite <- !app_assoc. reflexivity.
    + destruct (IH (rc + 1) false
                  (((tr ++ [EPost p]) ++ [EPrint (MRequestFailed emp)]) ++ [ESleep 2]))
        as (b & seg & ->).
      exists b, (EPost p :: EPrint (MRequestFailed emp) :: ESleep 2 :: seg).
      rewrite <- !app_assoc. reflexivity.
Qed.

Lemma push_row_ok mr row tr : exists seg, push_row mr row tr = (Ok tt, tr ++ seg).
Proof.
  unfold push_row. destruct (employee row) as [emp|].
  - rewrite bind_unfold.
    destruct (retry_loop_ok mr emp
                (mk_payload emp (isoformat (m_timestamp row)) (shift row))
                (S (Z.to_nat mr)) 0 false tr) as (b & seg & ->).
    destruct b.
    + exists seg. reflexivity.
    + exists (seg ++ [EPrint (MGiveUp emp mr)]).
      unfold print, emit. rewrite app_assoc. reflexivity.
  - exists [EPrint MSkipNaN]. reflexivity.
Qed.

Lemma push_data_to_erp_cons mr row rows tr tr' :
  push_row mr row tr = (Ok tt, tr') ->
  push_data_to_erp mr (row :: rows) tr = push_data_to_erp mr rows tr'.
Proof.
  intros H. unfold push_data_to_erp. simpl. rewrite !bind_unfold, H.
  reflexivity.
Qed.

(** With an endpoint answering 500 to every POST of the payload, the loop
    started at [retry_count = rc] posts it [max_retries - rc] times. *)
Lemma retry_loop_all_500 mr emp p
    (H500 : forall n, server n p = HTTP 500) fuel : forall rc tr,
  0 <= rc <= mr -> (Z.to_nat (mr - rc) < fuel)%nat ->
  exists seg, retry_loop mr emp p fuel rc false tr = (Ok false, tr ++ seg)
    /\ posts seg = repeat p (Z.to_nat (mr - rc)).
Proof.
  induction fuel as [|fuel IH]; intros rc tr Hrc Hfuel; [lia|].
  simpl. destruct (Z.ltb_spec rc mr) as [Hlt|Hge]; simpl.
  - unfold bind at 1, post. rewrite H500.
    unfold bind, print, sleep, emit. simpl.
    destruct (IH (rc + 1) (((tr ++ [EPost p]) ++ [EPrint (MFailStatus emp 500)])
                            ++ [ESleep 2])) as (seg & Hseg & Hposts); [lia|lia|].
    rewrite Hseg. eexists. split.
    + rewrite <- !app_assoc. reflexivity.
    + simpl. rewrite Hposts.
      replace (Z.to_nat (mr - rc)) with (S (Z.to_nat (mr - (rc + 1)))) by lia.
      reflexivity.
  - exists []. rewrite app_nil_r. split; [reflexivity|].
    replace (Z.to_nat (mr - rc)) with 0%nat by lia. reflexivity.
Qed.

Lemma push_data_to_erp_ok mr df : forall tr,
  exists seg, push_data_to_erp mr df tr = (Ok true, tr ++ seg).
Proof.
  induction df as [|row rows IH]; intros tr.
  - exists []. rewrite app_nil_r. reflexivity.
  - destruct (push_row_ok mr row tr) as (seg & H).
    rewrite (push_data_to_erp_cons _ _ _ _ _ H).
    destruct (IH (tr ++ seg)) as (seg' & ->).
    exists (seg ++ seg'). rewrite app_assoc. reflexivity.
Qed.

(** [fetch_biometric_data] only appends to the trace, never posts, and
    does not read the trace. *)
Lemma fetch_biometric_data_shape ip0 p t : exists r seg,
  (forall tr, fetch_biometric_data ip0 p t tr = (r, tr ++ EConnect ip0 p t :: seg))
  /\ posts seg = [].
Proof.
  unfold fetch_biometric_data.
  destruct (zk_connect ip0 p t) as [c|e].
  - destruct (zk_get_attendance c) as [atts|e];
      destruct (zk_disconnect c) as [u|e'];
      eexists; eexists; split;
      try (intros tr; rewrite <- !app_assoc; reflexivity);
      reflexivity.
  - eexists; eexists; split;
      [intros tr; rewrite <- !app_assoc; reflexivity|reflexivity].
Qed.

Lemma nth_error_mod_ne {A} (xs : list A) i x :
  nth_error xs (Nat.modulo i (length xs)) = Some x -> Nat.eqb (length xs) 0 = false.
Proof.
  destruct xs; [destruct i; discriminate|reflexivity].
Qed.

Lemma process_and_merge_eq devs i dev sh tr :
  nth_error devs (Nat.modulo i (length devs)) = Some dev ->
  nth_error SHIFT (Nat.modulo i (length SHIFT)) = Some sh ->
  process_and_merge devs i tr =
    match fetch_biometric_data (ip dev) 4370 180 tr with
    | (Raise _, tr1) => (Ok None, tr1 ++ [EPrint (MSkipDeviceError (device_id dev) sh)])
    | (Ok [], tr1) => (Ok None, tr1 ++ [EPrint (MNoData (device_id dev) sh)])
    | (Ok evs, tr1) =>
        match erp_roster i with
        | Some emp_df =>
            (Ok (Some (date_filter (left_join sh evs emp_df))), tr1 ++ [EFetchEmployees])
        | None => (Diverge, tr1 ++ [EFetchEmployees])
        end
    | (Diverge, tr1) => (Diverge, tr1)
    end.
Proof.
  intros Hdev Hsh.
  unfold process_and_merge, py_mod, py_getitem.
  rewrite (nth_error_mod_ne _ _ _ Hdev), (nth_error_mod_ne _ _ _ Hsh).
  unfold bind at 1, ret at 1. rewrite Hdev.
  unfold bind at 1, ret at 1.
  unfold bind at 1, ret at 1. rewrite Hsh.
  unfold bind at 1, ret at 1.
  unfold try_except, bind, ret, print, emit, fetch_employee_data.
  destruct (fetch_biometric_data (ip dev) 4370 180 tr) as [[evs|e|] tr1].
  - destruct evs; [reflexivity|].
    destruct (erp_roster i); reflexivity.
  - reflexivity.
  - reflexivity.
Qed.

Lemma cycle_eq i dev sh tr :
  nth_error devices (Nat.modulo i (length devices)) = Some dev ->
  nth_error SHIFT (Nat.modulo i (length SHIFT)) = Some sh ->
  cycle i tr =
    match process_and_merge devices i (tr ++ [EPrint (MProcessing (device_id dev) sh)]) with
    | (Ok (Some ((_ :: _) as rows)), tr1) =>
        (push_data_to_erp 2 (firstn 5 rows) ;; sleep 5)
          (tr1 ++ [EPrint (MFrame (firstn 5 rows))])
    | (Ok _, tr1) =>
        (Ok tt, tr1 ++ [EPrint (MSkipping (device_id dev) sh); ESleep 5])
    | (Raise e, tr1) => (Raise e, tr1)
    | (Diverge, tr1) => (Diverge, tr1)
    end.
Proof.
  intros Hdev Hsh.
  unfold cycle, py_mod, py_getitem.
  rewrite (nth_error_mod_ne _ _ _ Hdev), (nth_error_mod_ne _ _ _ Hsh).
  unfold bind at 1, ret at 1. rewrite Hdev.
  unfold bind at 1, ret at 1.
  unfold bind at 1, ret at 1. rewrite Hsh.
  unfold bind at 1, ret at 1.
  unfold bind at 1, print at 1, emit at 1.
  unfold bind at 1.
  destruct (process_and_merge devices i _) as [[[[|r rs]|]|e|] tr1].
  - unfold bind, ret, print, sleep, emit. rewrite Hdev, Hsh.
    rewrite <- app_assoc. reflexivity.
  - reflexivity.
  - unfold bind, ret, print, sleep, emit. rewrite Hdev, Hsh.
    rewrite <- app_assoc. reflexivity.
  - reflexivity.
  - reflexivity.
Qed.

Lemma nth_error_mod_some {A} (xs : list A) i :
  xs <> [] -> exists x, nth_error xs (Nat.modulo i (length xs)) = Some x.
Proof.
  intros Hne.
  destruct (nth_error xs (Nat.modulo i (length xs))) as [x|] eqn:E; [eauto|].
  apply nth_error_None in E.
  assert (length xs <> 0%nat) by (destruct xs; [congruence|discriminate]).
  pose proof (Nat.mod_upper_bound i (length xs)). lia.
Qed.

(** [fetch_biometric_data] never runs forever. *)
Lemma fetch_biometric_data_returns ip0 p t tr :
  fst (fetch_biometric_data ip0 p t tr) <> Diverge.
Proof.
  unfold fetch_biometric_data.
  destruct (zk_connect ip0 p t) as [c|e]; [|discriminate].
  destruct (zk_get_attendance c); destruct (zk_disconnect c); discriminate.
Qed.

(** [process_and_merge] never raises once both lookups succeed, and
    returns when the roster query of the cycle does. *)
Lemma process_and_merge_ok devs i dev sh tr :
  nth_error devs (Nat.modulo i (length devs)) = Some dev ->
  nth_error SHIFT (Nat.modulo i (length SHIFT)) = Some sh ->
  erp_roster i <> None ->
  exists o tr1, process_and_merge devs i tr = (Ok o, tr1).
Proof.
  intros Hdev Hsh Hr. rewrite (process_and_merge_eq devs i dev sh tr Hdev Hsh).
  pose proof (fetch_biometric_data_returns (ip dev) 4370 180 tr) as Hf.
  destruct (fetch_biometric_data _ _ _ _) as [[[|a evs]|e|] tr1]; eauto.
  - destruct (erp_roster i); [eauto|congruence].
  - simpl in Hf. congruence.
Qed.

Lemma cycle_ok i tr :
  devices <> [] -> SHIFT <> [] -> erp_roster i <> None ->
  exists tr', cycle i tr = (Ok tt, tr').
Proof.
  intros Hd Hs Hr.
  destruct (nth_error_mod_some devices i Hd) as (dev & Hdev).
  destruct (nth_error_mod_some SHIFT i Hs) as (sh & Hsh).
  rewrite (cycle_eq i dev sh tr Hdev Hsh).
  destruct (process_and_merge_ok devices i dev sh
              (tr ++ [EPrint (MProcessing (device_id dev) sh)]) Hdev Hsh Hr)
    as (o & tr1 & ->).
  destruct o as [[|r rs]|]; eauto.
  rewrite bind_unfold.
  destruct (push_data_to_erp_ok 2 (firstn 5 (r :: rs))
              (tr1 ++ [EPrint (MFrame (firstn 5 (r :: rs)))])) as (tr2 & ->).
  unfold sleep, emit. eauto.
Qed.

Lemma main_loop_from_stop i tr :
  (length devices <= i)%nat -> main_loop_from i tr = (Ok tt, tr ++ [EPrint MCompleted]).
Proof.
  intros H. simp main_loop_from.
  destruct (le_lt_dec (length devices) i); [reflexivity|lia].
Qed.

Lemma main_loop_from_step i tr :
  (i < length devices)%nat ->
  main_loop_from i tr = match cycle i tr with
                        | (Ok _, tr') => main_loop_from (S i) tr'
                        | (Raise e, tr') => (Raise e, tr')
                        | (Diverge, tr') => (Diverge, tr')
                        end.
Proof.
  intros H. simp main_loop_from.
  destruct (le_lt_dec (length devices) i); [lia|].
  simpl. destruct (cycle i tr) as [[u|e|] tr']; reflexivity.
Qed.

(** The loop runs the cycles [i, ..., i+k-1], then goes on from [i+k]. *)
Lemma main_loop_from_prefix k : forall i tr,
  (i + k <= length devices)%nat ->
  main_loop_from i tr = (for_each (seq i k) cycle ;; main_loop_from (i + k)) tr.
Proof.
  induction k as [|k IH]; intros i tr Hk.
  - rewrite Nat.add_0_r. reflexivity.
  - rewrite main_loop_from_step by lia.
    simpl. rewrite !bind_unfold.
    destruct (cycle i tr) as [[u|e|] tr'].
    + rewrite (IH (S i) tr') by lia. rewrite bind_unfold.
      replace (S i + k)%nat with (i + S k)%nat by lia. reflexivity.
    + reflexivity.
    + reflexivity.
Qed.

(** The loop runs the cycles [i, i+1, ..., len(devices)-1] in order. *)
Lemma main_loop_from_run (Hs : SHIFT <> [])
    (Hr : forall j, (j < length devices)%nat -> erp_roster j <> None) k : forall i tr,
  (length devices - i)%nat = k ->
  main_loop_from i tr = (for_each (seq i k) cycle ;; print MCompleted) tr.
Proof.
  induction k as [|k IH]; intros i tr Hk.
  - rewrite main_loop_from_stop by lia. reflexivity.
  - assert (Hd : devices <> []) by (destruct devices; simpl in Hk; [lia|discriminate]).
    rewrite main_loop_from_step by lia.
    destruct (cycle_ok i tr Hd Hs (Hr i ltac:(lia))) as (tr' & Hc). rewrite Hc.
    rewrite (IH (S i) tr') by lia.
    simpl. unfold bind at 1 3. unfold bind at 1. rewrite Hc. reflexivity.
Qed.

Lemma ret_oblivious {A} (a : A) : oblivious (ret a).
Proof. exists (Ok a), []. intros tr. rewrite app_nil_r. reflexivity. Qed.

Lemma raise_oblivious {A} e : oblivious (@raise A e).
Proof. exists (Raise e), []. intros tr. rewrite app_nil_r. reflexivity. Qed.

Lemma emit_oblivious ev : oblivious (emit ev).
Proof. exists (Ok tt), [ev]. reflexivity. Qed.

Lemma bind_oblivious {A B} (m : M A) (k : A -> M B) :
  oblivious m -> (forall a, oblivious (k a)) -> oblivious (bind m k).
Proof.
  intros (r & seg & Hm) Hk. destruct r as [a|e|].
  - destruct (Hk a) as (r' & seg' & Hk').
    exists r', (seg ++ seg'). intros tr. unfold bind. rewrite Hm, Hk', app_assoc.
    reflexivity.
  - exists (Raise e), seg. intros tr. unfold bind. rewrite Hm. reflexivity.
  - exists Diverge, seg. intros tr. unfold bind. rewrite Hm. reflexivity.
Qed.

Lemma diverge_oblivious {A} : oblivious (@diverge A).
Proof. exists Diverge, []. intros tr. rewrite app_nil_r. reflexivity. Qed.

Lemma try_except_oblivious {A} (m : M A) h :
  oblivious m -> (forall e, oblivious (h e)) -> oblivious (try_except m h).
Proof.
  intros (r & seg & Hm) Hh. destruct r as [a|e|].
  - exists (Ok a), seg. intros tr. unfold try_except. rewrite Hm. reflexivity.
  - destruct (Hh e) as (r' & seg' & Hh').
    exists r', (seg ++ seg'). intros tr. unfold try_except. rewrite Hm, Hh', app_assoc.
    reflexivity.
  - exists Diverge, seg. intros tr. unfold try_except. rewrite Hm. reflexivity.
Qed.

Lemma py_mod_oblivious a b : oblivious (py_mod a b).
Proof.
  unfold py_mod. destruct (Nat.eqb b 0); [apply raise_oblivious|apply ret_oblivious].
Qed.

Lemma py_getitem_oblivious {A} (xs : list A) k : oblivious (py_getitem xs k).
Proof.
  unfold py_getitem. destruct (nth_error xs k); [apply ret_oblivious|apply raise_oblivious].
Qed.

Lemma fetch_biometric_data_oblivious ip0 p t : oblivious (fetch_biometric_data ip0 p t).
Proof.
  destruct (fetch_biometric_data_shape ip0 p t) as (r & seg & H & _).
  exists r, (EConnect ip0 p t :: seg). exact H.
Qed.

Lemma process_and_merge_oblivious devs i : oblivious (process_and_merge devs i).
Proof.
  unfold process_and_merge.
  apply bind_oblivious; [apply py_mod_oblivious|intros k].
  apply bind_oblivious; [apply py_getitem_oblivious|intros dev].
  apply bind_oblivious; [apply py_mod_oblivious|intros k'].
  apply bind_oblivious; [apply py_getitem_oblivious|intros sh].
  apply bind_oblivious.
  - apply try_except_oblivious.
    + apply bind_oblivious; [apply fetch_biometric_data_oblivious|intros d].
      apply ret_oblivious.
    + intros e. apply bind_oblivious; [apply emit_oblivious|intros u].
      apply ret_oblivious.
  - intros [[|a evs]|].
    + apply bind_oblivious; [apply emit_oblivious|intros u]. apply ret_oblivious.
    + apply bind_oblivious; [|intros emps; apply ret_oblivious].
      unfold fetch_employee_data.
      apply bind_oblivious; [apply emit_oblivious|intros u].
      destruct (erp_roster i); [apply ret_oblivious|apply diverge_oblivious].
    + apply ret_oblivious.
Qed.

Lemma nth_error_mod_small {A} (xs : list A) i x :
  nth_error xs i = Some x -> Nat.modulo i (length xs) = i.
Proof.
  intros H. apply Nat.mod_small. apply nth_error_Some. congruence.
Qed.

(** A [Some rows] result of the engine is the date-filtered left join of
    the events the device returned. *)
Lemma process_and_merge_some devs i tr rows tr' :
  process_and_merge devs i tr = (Ok (Some rows), tr') ->
  exists dev sh evs tr1,
    nth_error devs (Nat.modulo i (length devs)) = Some dev
    /\ nth_error SHIFT (Nat.modulo i (length SHIFT)) = Some sh
    /\ fetch_biometric_data (ip dev) 4370 180 tr = (Ok evs, tr1)
    /\ exists emp_df, erp_roster i = Some emp_df
                      /\ rows = date_filter (left_join sh evs emp_df).
Proof.
  intros H.
  assert (exists dev sh, nth_error devs (Nat.modulo i (length devs)) = Some dev
                         /\ nth_error SHIFT (Nat.modulo i (length SHIFT)) = Some sh)
    as (dev & sh & Hdev & Hsh).
  { unfold process_and_merge, py_mod, py_getitem, bind, raise, ret in H.
    destruct (Nat.eqb (length devs) 0); [discriminate|].
    destruct (nth_error devs _) as [dev|]; [|discriminate].
    destruct (Nat.eqb (length SHIFT) 0); [discriminate|].
    destruct (nth_error SHIFT _) as [sh|]; [|discriminate].
    eauto. }
  rewrite (process_and_merge_eq devs i dev sh tr Hdev Hsh) in H.
  destruct (fetch_biometric_data _ _ _ _) as [[[|a evs]|e|] tr1] eqn:Hf;
    try discriminate.
  destruct (erp_roster i) as [emp_df|] eqn:Hr; [|discriminate].
  injection H as <- _. exists dev, sh, (a :: evs), tr1. eauto 6.
Qed.

Lemma left_join_one_attendance sh emps a :
  map merged_attendance (left_join_one sh emps a)
    = repeat a (Nat.max 1 (length (join_matches emps a))).
Proof.
  unfold left_join_one. destruct (join_matches emps a) as [|m ms].
  - destruct a; reflexivity.
  - rewrite map_map. destruct a. simpl. f_equal.
    induction ms as [|m' ms IH]; simpl; [reflexivity|rewrite IH; reflexivity].
Qed.

Lemma left_join_attendance sh evs emps :
  map merged_attendance (left_join sh evs emps)
    = flat_map (fun a => repeat a (Nat.max 1 (length (join_matches emps a)))) evs.
Proof.
  unfold left_join. induction evs as [|a evs IH]; [reflexivity|].
  simpl flat_map. rewrite map_app, IH, left_join_one_attendance. reflexivity.
Qed.

(** ** Claims about the Delivery Submitter *)

(** C2: for a row with a non-null employee whose payload the endpoint
    answers with HTTP 500 on every attempt, [push_data_to_erp] posts that
    payload exactly [max_retries] times, then logs the give-up message and
    goes on with the remaining rows exactly as if it had been called on
    them alone. *)
Theorem push_retry_exhaustion (max_retries : Z) (row : merged) (rows : list merged)
    (emp : string) (tr : list event)
    (Hnn : 0 <= max_retries) (Hemp : employee row = Some emp)
    (H500 : forall n, server n (mk_payload emp (isoformat (m_timestamp row)) (shift row))
                      = HTTP 500) :
  exists seg,
    push_data_to_erp max_retries (row :: rows) tr
      = push_data_to_erp max_retries rows
          (tr ++ seg ++ [EPrint (MGiveUp emp max_retries)])
    /\ posts seg = repeat (mk_payload emp (isoformat (m_timestamp row)) (shift row))
                          (Z.to_nat max_retries).
Proof.
  set (p := mk_payload emp (isoformat (m_timestamp row)) (shift row)) in *.
  destruct (retry_loop_all_500 max_retries emp p H500 (S (Z.to_nat max_retries)) 0 tr)
    as (seg & Hseg & Hposts); [lia|lia|].
  rewrite Z.sub_0_r in Hposts.
  exists seg. split; [|exact Hposts].
  apply push_data_to_erp_cons.
  unfold push_row. rewrite Hemp. fold p.
  rewrite bind_unfold, Hseg. unfold print, emit.
  rewrite <- app_assoc. reflexivity.
Qed.

(** C4: a row whose employee is null is skipped with the log message of
    line 138 only (no POST), and the remaining rows are processed as if
    [push_data_to_erp] had been called on them alone. *)
Theorem push_skips_null_employee (max_retries : Z) (row : merged) (rows : list merged)
    (tr : list event) (Hnull : employee row = None) :
  push_data_to_erp max_retries (row :: rows) tr
    = push_data_to_erp max_retries rows (tr ++ [EPrint MSkipNaN]).
Proof.
  apply push_data_to_erp_cons. unfold push_row. rewrite Hnull. reflexivity.
Qed.

(** C10: [push_data_to_erp] returns [True] on every batch, whatever the
    endpoint answers and whatever the rows are. *)
Theorem push_data_to_erp_returns_true (max_retries : Z) (df : list merged)
    (tr : list event) :
  fst (push_data_to_erp max_retries df tr) = Ok true.
Proof.
  revert tr. induction df as [|row rows IH]; intros tr.
  - reflexivity.
  - destruct (push_row_ok max_retries row tr) as (tr' & H).
    rewrite (push_data_to_erp_cons _ _ _ _ _ H). apply IH.
Qed.

(** ** Claims about the Merge & Filter Engine *)

(** C1 (amended): every row of a result of the engine has its timestamp in
    [[START_DATE, END_DATE]]; the result is the date-filtered left join
    with the roster returned by the cycle's [fetch_employee_data], so an
    in-range event that matches no roster row stays in it, with a null
    employee. *)
Theorem merge_result_in_date_range (devs : list device) (i : nat) (tr : list event)
    (rows : list merged) (tr' : list event)
    (H : process_and_merge devs i tr = (Ok (Some rows), tr')) :
  (forall r, In r rows -> START_DATE <= m_timestamp r <= END_DATE)
  /\ exists sh evs emp_df,
       fetch_employee_data_returns (erp_get i) emp_df
       /\ rows = date_filter (left_join sh evs emp_df)
       /\ forall a, In a evs -> join_matches emp_df a = [] ->
            START_DATE <= timestamp a <= END_DATE ->
            In (mk_merged (uid a) (user_id a) (timestamp a) (status a) (punch a) sh
                          None None) rows.
Proof.
  destruct (process_and_merge_some devs i tr rows tr' H)
    as (dev & sh & evs & tr1 & _ & _ & _ & emp_df & Hroster & ->).
  split.
  - intros r Hr. unfold date_filter in Hr. apply filter_In in Hr as [_ Hr].
    unfold in_date_range in Hr. apply andb_true_iff in Hr as [H1 H2].
    apply Z.leb_le in H1, H2. lia.
  - exists sh, evs, emp_df.
    split; [apply erp_roster_spec; exact Hroster|]. split; [reflexivity|].
    intros a Ha Hm [H1 H2]. unfold date_filter. apply filter_In. split.
    + unfold left_join. apply in_flat_map. exists a. split; [exact Ha|].
      unfold left_join_one. rewrite Hm. left. reflexivity.
    + unfold in_date_range. simpl. apply andb_true_iff.
      split; apply Z.leb_le; assumption.
Qed.

(** C3: the date filter drops a row exactly when its timestamp is before
    [START_DATE] or after [END_DATE]; for a window with
    [START_DATE <= END_DATE], rows stamped exactly at either bound stay. *)
Theorem date_filter_bounds (rows : list merged) (r : merged) (Hin : In r rows) :
  (~ In r (date_filter rows) <-> m_timestamp r < START_DATE \/ m_timestamp r > END_DATE)
  /\ (START_DATE <= END_DATE ->
      m_timestamp r = START_DATE \/ m_timestamp r = END_DATE ->
      In r (date_filter rows)).
Proof.
  clear - Hin.
  assert (Hiff : In r (date_filter rows) <-> START_DATE <= m_timestamp r <= END_DATE).
  { unfold date_filter, in_date_range. rewrite filter_In, andb_true_iff, !Z.leb_le.
    tauto. }
  split.
  - rewrite Hiff. lia.
  - intros Hse Hb. apply Hiff. lia.
Qed.

(** C9: the engine does not depend on anything that happened before: run
    at two points of the run, with the same devices and index, it returns
    the same result and logs the same events. *)
Theorem process_and_merge_idempotent (devs : list device) (i : nat)
    (tr1 tr2 : list event) :
  fst (process_and_merge devs i tr1) = fst (process_and_merge devs i tr2)
  /\ exists seg, snd (process_and_merge devs i tr1) = tr1 ++ seg
                 /\ snd (process_and_merge devs i tr2) = tr2 ++ seg.
Proof.
  destruct (process_and_merge_oblivious devs i) as (r & seg & Hp).
  rewrite !Hp. split; [reflexivity|]. exists seg. split; reflexivity.
Qed.

(** ** Claims about the scheduler and the device adapter *)

(** C5: in cycle [i], once the device returned [evs] and the roster query
    returned [emp_df], the rows handed to [push_data_to_erp] are the first
    5 rows of the date-filtered left join ([filter] keeps order), and
    nothing else is posted in the cycle; the left join keeps every event,
    in event order, once per matching roster row (once when none matches),
    with no deduplication. *)
Theorem cycle_submits_first_five (i : nat) (dev : device) (sh : string)
    (evs : list attendance) (emp_df : list employee_rec) (tr tr1 : list event)
    (Hdev : nth_error devices i = Some dev)
    (Hsh : nth_error SHIFT (Nat.modulo i (length SHIFT)) = Some sh)
    (Hfetch : fetch_biometric_data (ip dev) 4370 180
                (tr ++ [EPrint (MProcessing (device_id dev) sh)]) = (Ok evs, tr1))
    (Hroster : fetch_employee_data_returns (erp_get i) emp_df)
    (Hne : date_filter (left_join sh evs emp_df) <> []) :
  cycle i tr
    = (push_data_to_erp 2 (firstn 5 (date_filter (left_join sh evs emp_df))) ;; sleep 5)
        (tr1 ++ [EFetchEmployees;
                 EPrint (MFrame (firstn 5 (date_filter (left_join sh evs emp_df))))])
  /\ map merged_attendance (left_join sh evs emp_df)
     = flat_map (fun a => repeat a (Nat.max 1 (length (join_matches emp_df a)))) evs.
Proof.
  apply (proj2 (erp_roster_spec i emp_df)) in Hroster.
  assert (Hdev' : nth_error devices (Nat.modulo i (length devices)) = Some dev)
    by (rewrite (nth_error_mod_small devices i dev Hdev); exact Hdev).
  split.
  - rewrite (cycle_eq i dev sh tr Hdev' Hsh).
    rewrite (process_and_merge_eq devices i dev sh _ Hdev' Hsh), Hfetch.
    destruct evs as [|a evs]; [contradiction Hne; reflexivity|].
    rewrite Hroster.
    destruct (date_filter (left_join sh (a :: evs) emp_df)) as [|r rs];
      [contradiction Hne; reflexivity|].
    rewrite <- app_assoc. reflexivity.
  - apply left_join_attendance.
Qed.

(** C6: in a cycle where the device returns no attendance event, the
    engine returns [None], the cycle posts nothing, and the loop goes on
    with the counter incremented. *)
Theorem zero_events_skip_cycle (i : nat) (dev : device) (sh : string) (tr : list event)
    (Hdev : nth_error devices i = Some dev)
    (Hsh : nth_error SHIFT (Nat.modulo i (length SHIFT)) = Some sh)
    (Hnone : fst (fetch_biometric_data (ip dev) 4370 180
                    (tr ++ [EPrint (MProcessing (device_id dev) sh)])) = Ok []) :
  fst (process_and_merge devices i (tr ++ [EPrint (MProcessing (device_id dev) sh)]))
    = Ok None
  /\ exists seg, cycle i tr = (Ok tt, tr ++ seg)
       /\ posts seg = []
       /\ main_loop_from i tr = main_loop_from (S i) (tr ++ seg).
Proof.
  assert (Hdev' : nth_error devices (Nat.modulo i (length devices)) = Some dev)
    by (rewrite (nth_error_mod_small devices i dev Hdev); exact Hdev).
  assert (Hlt : (i < length devices)%nat)
    by (apply nth_error_Some; congruence).
  destruct (fetch_biometric_data_shape (ip dev) 4370 180) as (r & seg0 & Hf & Hp).
  rewrite Hf in Hnone. simpl in Hnone. subst r.
  assert (Hc : cycle i tr
               = (Ok tt, tr ++ (EPrint (MProcessing (device_id dev) sh)
                                :: EConnect (ip dev) 4370 180 :: seg0)
                            ++ [EPrint (MNoData (device_id dev) sh);
                                EPrint (MSkipping (device_id dev) sh); ESleep 5])).
  { rewrite (cycle_eq i dev sh tr Hdev' Hsh).
    rewrite (process_and_merge_eq devices i dev sh _ Hdev' Hsh), Hf.
    simpl. rewrite <- !app_assoc. reflexivity. }
  split.
  - rewrite (process_and_merge_eq devices i dev sh _ Hdev' Hsh), Hf. reflexivity.
  - eexists. split; [exact Hc|]. split.
    + rewrite posts_app. simpl. rewrite Hp. reflexivity.
    + rewrite (main_loop_from_step i tr Hlt), Hc. reflexivity.
Qed.

(** C7 (amended): the loop runs the cycles [0, 1, ..., len(devices) - 1]
    in order and then stops with "Process Completed.", provided [SHIFT]
    is non-empty and the roster query of each cycle returns; cycle [i]
    uses [devices[i]] (so each device index is used once) paired with
    [SHIFT[i mod len(SHIFT)]], printing them and connecting to that
    device.  With devices and an empty [SHIFT] the first cycle raises
    [ZeroDivisionError]; and if, in cycle [k], the device returns events
    and the roster query runs forever, the loop never exits. *)
Theorem main_loop_one_pass (tr : list event) :
  (SHIFT <> [] ->
   (forall i, (i < length devices)%nat ->
      exists emp_df, fetch_employee_data_returns (erp_get i) emp_df) ->
   main_loop tr = (for_each (seq 0 (length devices)) cycle ;; print MCompleted) tr
   /\ fst (main_loop tr) = Ok tt)
  /\ map (fun i => Nat.modulo i (length devices)) (seq 0 (length devices))
     = seq 0 (length devices)
  /\ (forall i dev sh tr',
        nth_error devices i = Some dev ->
        nth_error SHIFT (Nat.modulo i (length SHIFT)) = Some sh ->
        exists seg, snd (cycle i tr')
          = tr' ++ EPrint (MProcessing (device_id dev) sh)
                :: EConnect (ip dev) 4370 180 :: seg)
  /\ (devices <> [] -> SHIFT = [] -> main_loop tr = (Raise ZeroDivisionError, tr))
  /\ (forall k dev sh evs tr1,
        nth_error devices k = Some dev ->
        nth_error SHIFT (Nat.modulo k (length SHIFT)) = Some sh ->
        for_each (seq 0 k) cycle tr = (Ok tt, tr1) ->
        fst (fetch_biometric_data (ip dev) 4370 180 []) = Ok evs ->
        evs <> [] ->
        ~ (exists emp_df, fetch_employee_data_returns (erp_get k) emp_df) ->
        fst (main_loop tr) = Diverge).
Proof.
  assert (Hsome : forall j, (exists emp_df, fetch_employee_data_returns (erp_get j) emp_df) ->
                            erp_roster j <> None).
  { intros j (emp_df & He). apply erp_roster_spec in He. congruence. }
  split; [|split; [|split; [|split]]].
  - intros Hs Hret.
    assert (Hr : forall j, (j < length devices)%nat -> erp_roster j <> None)
      by (intros j Hj; apply Hsome, Hret, Hj).
    assert (Hrun : main_loop tr
                   = (for_each (seq 0 (length devices)) cycle ;; print MCompleted) tr)
      by (apply (main_loop_from_run Hs Hr); lia).
    split; [exact Hrun|]. rewrite Hrun.
    destruct devices as [|d ds] eqn:Ed; [reflexivity|].
    assert (Hd : devices <> []) by (rewrite Ed; discriminate).
    rewrite <- Ed in Hr |- *.
    assert (Hall : forall l tr0, (forall j, In j l -> erp_roster j <> None) ->
                   exists tr1, for_each l cycle tr0 = (Ok tt, tr1)).
    { induction l as [|j l IH]; intros tr0 Hl; [exists tr0; reflexivity|].
      simpl. rewrite bind_unfold.
      destruct (cycle_ok j tr0 Hd Hs (Hl j (or_introl eq_refl))) as (tr1 & ->).
      apply IH. intros j' Hj'. apply Hl. right. exact Hj'. }
    rewrite bind_unfold.
    destruct (Hall (seq 0 (length devices)) tr) as (tr1 & ->).
    { intros j Hj. apply in_seq in Hj. apply Hr. lia. }
    reflexivity.
  - rewrite <- (map_id (seq 0 (length devices))) at 2.
    apply map_ext_in. intros j Hj. apply in_seq in Hj.
    apply Nat.mod_small. lia.
  - intros i dev sh tr' Hdev Hsh.
    assert (Hdev' : nth_error devices (Nat.modulo i (length devices)) = Some dev)
      by (rewrite (nth_error_mod_small devices i dev Hdev); exact Hdev).
    destruct (fetch_biometric_data_shape (ip dev) 4370 180) as (r & seg0 & Hf & _).
    rewrite (cycle_eq i dev sh tr' Hdev' Hsh).
    rewrite (process_and_merge_eq devices i dev sh _ Hdev' Hsh), Hf.
    destruct r as [[|a evs]|e|].
    + eexists. simpl. rewrite <- !app_assoc. reflexivity.
    + destruct (erp_roster i) as [emp_df|].
      * destruct (date_filter (left_join sh (a :: evs) emp_df)) as [|r rs].
        -- eexists. simpl. rewrite <- !app_assoc. reflexivity.
        -- rewrite bind_unfold.
           edestruct (push_data_to_erp_ok 2 (firstn 5 (r :: rs))) as (seg1 & ->).
           eexists. unfold sleep, emit. simpl. rewrite <- !app_assoc. reflexivity.
      * eexists. simpl. rewrite <- !app_assoc. reflexivity.
    + eexists. simpl. rewrite <- !app_assoc. reflexivity.
    + eexists. simpl. rewrite <- !app_assoc. reflexivity.
  - intros Hd Hs.
    destruct (nth_error_mod_some devices 0 Hd) as (dev & Hdev).
    assert (Hc : cycle 0 tr = (Raise ZeroDivisionError, tr)).
    { unfold cycle, py_mod, py_getitem.
      rewrite (nth_error_mod_ne _ _ _ Hdev).
      unfold bind at 1, ret at 1. rewrite Hdev.
      unfold bind at 1, ret at 1. rewrite Hs. reflexivity. }
    unfold main_loop.
    assert (Hlt : (0 < length devices)%nat)
      by (destruct devices; [contradiction Hd; reflexivity|simpl; lia]).
    rewrite (main_loop_from_step 0 tr Hlt), Hc. reflexivity.
  - intros k dev sh evs tr1 Hdev Hsh Hpre Hf Hne Hnot.
    assert (Hk : (k < length devices)%nat) by (apply nth_error_Some; congruence).
    assert (Hnone : erp_roster k = None).
    { destruct (erp_roster k) as [emp_df|] eqn:E; [|reflexivity].
      exfalso. apply Hnot. exists emp_df. apply erp_roster_spec. exact E. }
    assert (Hdev' : nth_error devices (Nat.modulo k (length devices)) = Some dev)
      by (rewrite (nth_error_mod_small devices k dev Hdev); exact Hdev).
    unfold main_loop.
    rewrite (main_loop_from_prefix k 0 tr ltac:(lia)), bind_unfold, Hpre.
    change (0 + k)%nat with k.
    rewrite (main_loop_from_step k tr1 Hk), (cycle_eq k dev sh tr1 Hdev' Hsh).
    rewrite (process_and_merge_eq devices k dev sh _ Hdev' Hsh).
    destruct (fetch_biometric_data_shape (ip dev) 4370 180) as (r & seg0 & Hf' & _).
    rewrite Hf' in Hf. simpl in Hf. subst r. rewrite Hf'.
    destruct evs as [|a evs]; [contradiction Hne; reflexivity|].
    rewrite Hnone. reflexivity.
Qed.

(** C8 (amended): [fetch_biometric_data] turns a raising [connect] into an
    empty result without calling [disconnect]; a raising [get_attendance]
    into an empty result after [disconnect], provided [disconnect] itself
    returns normally; an established connection is always disconnected,
    exactly once and last; an exception of [disconnect] escapes; and the
    cycle that made the call catches it, the engine returning [None], and
    skips the device. *)
Theorem fetch_biometric_data_contract (ip0 : string) (p t : Z) (tr : list event) :
  (forall e, zk_connect ip0 p t = ZkRaise e ->
     fetch_biometric_data ip0 p t tr
       = (Ok [], tr ++ [EConnect ip0 p t; EPrint (MFetchError ip0)]))
  /\ (forall c e u, zk_connect ip0 p t = ZkOk c -> zk_get_attendance c = ZkRaise e ->
        zk_disconnect c = ZkOk u ->
        fetch_biometric_data ip0 p t tr
          = (Ok [], tr ++ [EConnect ip0 p t; EGetAttendance;
                           EPrint (MFetchError ip0); EDisconnect]))
  /\ (forall c, zk_connect ip0 p t = ZkOk c ->
        exists seg, snd (fetch_biometric_data ip0 p t tr)
                      = tr ++ EConnect ip0 p t :: seg ++ [EDisconnect]
                    /\ ~ In EDisconnect seg)
  /\ (forall c e', zk_connect ip0 p t = ZkOk c -> zk_disconnect c = ZkRaise e' ->
        fst (fetch_biometric_data ip0 p t tr) = Raise e')
  /\ (forall i dev sh e,
        nth_error devices i = Some dev ->
        nth_error SHIFT (Nat.modulo i (length SHIFT)) = Some sh ->
        fst (fetch_biometric_data (ip dev) 4370 180 []) = Raise e ->
        fst (process_and_merge devices i tr) = Ok None
        /\ cycle i tr
           = (Ok tt, snd (fetch_biometric_data (ip dev) 4370 180
                            (tr ++ [EPrint (MProcessing (device_id dev) sh)]))
                       ++ [EPrint (MSkipDeviceError (device_id dev) sh);
                           EPrint (MSkipping (device_id dev) sh); ESleep 5])).
Proof.
  split; [|split; [|split; [|split]]].
  - intros e He. unfold fetch_biometric_data. rewrite He. rewrite <- app_assoc. reflexivity.
  - intros c e u Hc He Hu. unfold fetch_biometric_data.
    rewrite Hc, He, Hu. rewrite <- !app_assoc. reflexivity.
  - intros c Hc. unfold fetch_biometric_data. rewrite Hc.
    destruct (zk_get_attendance c) as [atts|e];
      [exists [EGetAttendance; EPrint (MFetched ip0 (length atts))]
      |exists [EGetAttendance; EPrint (MFetchError ip0)]];
      (split; [destruct (zk_disconnect c); simpl; rewrite <- !app_assoc; reflexivity
              |simpl; intros [H|[H|[]]]; discriminate]).
  - intros c e' Hc Hd. unfold fetch_biometric_data. rewrite Hc.
    destruct (zk_get_attendance c); rewrite Hd; reflexivity.
  - intros i dev sh e Hdev Hsh Hf.
    assert (Hdev' : nth_error devices (Nat.modulo i (length devices)) = Some dev)
      by (rewrite (nth_error_mod_small devices i dev Hdev); exact Hdev).
    destruct (fetch_biometric_data_shape (ip dev) 4370 180) as (r & seg & Hf' & _).
    rewrite Hf' in Hf. simpl in Hf. subst r.
    split.
    + rewrite (process_and_merge_eq devices i dev sh tr Hdev' Hsh), Hf'. reflexivity.
    + rewrite (cycle_eq i dev sh tr Hdev' Hsh).
      rewrite (process_and_merge_eq devices i dev sh _ Hdev' Hsh), Hf'.
      simpl. rewrite <- !app_assoc. reflexivity.
Qed.

End Program.

(** ** Instances on the concrete configuration, and counterexamples *)

Import World.
Open Scope string_scope.
Open Scope list_scope.

(** ** The pagination loop, and the roster backends of the examples *)

Section PaginationFacts.

Variable erp_get : Z -> page_response.

Lemma fetch_pages_from (n : nat) (pages : nat -> list employee_rec)
    (Hpages : forall k, (k < n)%nat ->
       pages k <> [] /\ erp_get (limit_page_length * Z.of_nat k) = PageData (pages k))
    (Hstop : page_stops (erp_get (limit_page_length * Z.of_nat n))) :
  forall m k all_data result, (k + m = n)%nat ->
    (fetch_pages erp_get (limit_page_length * Z.of_nat k) all_data result
     <-> result = all_data ++ concat (map pages (seq k m))).
Proof.
  induction m as [|m IH]; intros k all_data result Hkm.
  - assert (k = n) as -> by lia. cbn [seq map concat]. rewrite app_nil_r. split.
    + intros H. inversion H; subst; try reflexivity.
      destruct Hstop as [E|[E|E]]; congruence.
    + intros ->. destruct Hstop as [E|[E|E]].
      * apply fetch_pages_empty; exact E.
      * apply fetch_pages_no_key; exact E.
      * apply fetch_pages_error; exact E.
  - destruct (Hpages k ltac:(lia)) as [Hne Hget].
    destruct (pages k) as [|x xs] eqn:Ek; [contradiction Hne; reflexivity|].
    assert (Hnext : limit_page_length * Z.of_nat k + limit_page_length
                    = limit_page_length * Z.of_nat (S k)) by lia.
    simpl seq. simpl map. simpl concat. rewrite Ek.
    split.
    + intros H. inversion H as [? ? E|? ? E|? ? E|? ? r rs ? E Hrest]; subst;
        rewrite Hget in E; try discriminate.
      injection E as <- <-.
      rewrite Hnext in Hrest.
      apply (IH (S k) _ _ ltac:(lia)) in Hrest. rewrite Hrest.
      rewrite <- app_assoc. reflexivity.
    + intros ->. apply (fetch_pages_next erp_get _ _ x xs); [exact Hget|].
      rewrite Hnext. apply (IH (S k) _ _ ltac:(lia)).
      rewrite <- app_assoc. reflexivity.
Qed.

Lemma fetch_pages_never_ends
    (Hall : forall k, exists rows, rows <> [] /\
              erp_get (limit_page_length * Z.of_nat k) = PageData rows)
    limit_start all_data result :
  fetch_pages erp_get limit_start all_data result ->
  forall k, limit_start = limit_page_length * Z.of_nat k -> False.
Proof.
  induction 1 as [s acc E|s acc E|s acc E|s acc r rs res E _ IH];
    intros k ->.
  - destruct (Hall k) as (rows & Hne & Hk). rewrite Hk in E.
    injection E as ->. contradiction Hne. reflexivity.
  - destruct (Hall k) as (rows & Hne & Hk). rewrite Hk in E. discriminate.
  - destruct (Hall k) as (rows & Hne & Hk). rewrite Hk in E. discriminate.
  - apply (IH (S k)). unfold limit_page_length. lia.
Qed.

End PaginationFacts.

(** A backend answering one page [rows] (none when [rows] is empty): the
    query returns exactly [rows]. *)
Lemma erp_single_spec (rows : list employee_rec) :
  forall emp_df, Some rows = Some emp_df
                 <-> fetch_employee_data_returns (erp_single rows) emp_df.
Proof.
  intros emp_df. unfold fetch_employee_data_returns.
  destruct rows as [|r rs].
  - pose proof (fetch_pages_from (erp_single []) 0 (fun _ => [])
                  ltac:(intros k Hk; lia) ltac:(left; reflexivity)
                  0 0 [] emp_df ltac:(lia)) as H.
    change (limit_page_length * Z.of_nat 0) with 0 in H.
    cbn [seq map concat app] in H. rewrite H.
    split; intros E; congruence.
  - pose proof (fetch_pages_from (erp_single (r :: rs)) 1 (fun _ => r :: rs)
                  ltac:(intros k Hk; assert (k = 0%nat) as -> by lia;
                        split; [discriminate|reflexivity])
                  ltac:(left; reflexivity)
                  1 0 [] emp_df ltac:(lia)) as H.
    change (limit_page_length * Z.of_nat 0) with 0 in H.
    cbn [seq map concat app] in H. rewrite app_nil_r in H. rewrite H.
    split; intros E; congruence.
Qed.

(** The backend whose every page holds a record: the query never returns. *)
Lemma erp_endless_spec :
  forall emp_df, None = Some emp_df <-> fetch_employee_data_returns erp_endless emp_df.
Proof.
  intros emp_df. split; [discriminate|].
  intros H. exfalso.
  assert (Hall : forall k, exists rows, rows <> [] /\
                   erp_endless (limit_page_length * Z.of_nat k) = PageData rows)
    by (intros k; exists [emp1]; split; [discriminate|reflexivity]).
  apply (fetch_pages_never_ends erp_endless Hall 0 [] emp_df H 0).
  reflexivity.
Qed.

(** ** Instances on the concrete configuration, and counterexamples *)

Lemma push_retry_exhaustion_witness :
  0 <= 2 /\
  exists seg,
    push_data_to_erp server_500 iso_stub 2 [row_of (Some "E1") 100; row_of None 100] []
      = push_data_to_erp server_500 iso_stub 2 [row_of None 100]
          ([] ++ seg ++ [EPrint (MGiveUp "E1" 2)])
    /\ posts seg = repeat (mk_payload "E1" (iso_stub 100) "S1") (Z.to_nat 2).
Proof.
  split; [lia|].
  apply (push_retry_exhaustion server_500 iso_stub 2 (row_of (Some "E1") 100)
           [row_of None 100] "E1" []);
    [lia|reflexivity|intros n; reflexivity].
Defined.

Lemma push_skips_null_employee_witness :
  employee (row_of None 100) = None /\
  push_data_to_erp server_201 iso_stub 2 [row_of None 100; row_of (Some "E1") 100] []
    = push_data_to_erp server_201 iso_stub 2 [row_of (Some "E1") 100]
        ([] ++ [EPrint MSkipNaN]).
Proof.
  split; [reflexivity|].
  apply (push_skips_null_employee server_201 iso_stub 2 (row_of None 100)
           [row_of (Some "E1") 100] []).
  reflexivity.
Defined.

Lemma merge_result_in_date_range_witness :
  let rows := [mk_merged 1 "7" 100 1 0 "S1" None None] in
  (forall r, In r rows -> 0 <= m_timestamp r <= 1000)
  /\ exists sh evs emp_df,
       fetch_employee_data_returns (erp_single []) emp_df
       /\ rows = date_filter 0 1000 (left_join sh evs emp_df)
       /\ forall a, In a evs -> join_matches emp_df a = [] ->
            0 <= timestamp a <= 1000 ->
            In (mk_merged (uid a) (user_id a) (timestamp a) (status a) (punch a) sh
                          None None) rows.
Proof.
  intros rows.
  eapply (merge_result_in_date_range ["S1"] 0 1000 string zk_connect_ok zk_get_by_ip
            zk_disconnect_ok (fun _ => erp_single []) (fun _ => Some [])
            (fun _ => erp_single_spec []) [dev1] 0 []).
  vm_compute. reflexivity.
Defined.

Lemma date_filter_bounds_witness :
  In (row_of None 1000) [row_of None 0; row_of None 1000; row_of None 1001] /\
  ((~ In (row_of None 1000) (date_filter 0 1000 [row_of None 0; row_of None 1000; row_of None 1001])
    <-> 1000 < 0 \/ 1000 > 1000)
   /\ (0 <= 1000 -> 1000 = 0 \/ 1000 = 1000 ->
       In (row_of None 1000) (date_filter 0 1000 [row_of None 0; row_of None 1000; row_of None 1001]))).
Proof.
  split; [simpl; tauto|].
  apply (date_filter_bounds 0 1000
           [row_of None 0; row_of None 1000; row_of None 1001] (row_of None 1000)).
  simpl; tauto.
Defined.

Lemma cycle_submits_first_five_witness :
  let evs := map ev_at [1; 2; 3; 4; 5; 6; 7] ++ [ev_late] in
  let tr1 := [EPrint (MProcessing "D1" "S1"); EConnect "10.0.0.1" 4370 180;
              EGetAttendance; EPrint (MFetched "10.0.0.1" 8); EDisconnect] in
  length (date_filter 0 1000 (left_join "S1" evs roster1)) = 7%nat
  /\ cycle [dev1; dev2] ["S1"; "S2"] 0 1000 string zk_connect_ok zk_get_many
       zk_disconnect_ok (fun _ => Some roster1) server_201 iso_stub 0 []
     = (push_data_to_erp server_201 iso_stub 2
          (firstn 5 (date_filter 0 1000 (left_join "S1" evs roster1))) ;; sleep 5)
         (tr1 ++ [EFetchEmployees;
                  EPrint (MFrame (firstn 5 (date_filter 0 1000 (left_join "S1" evs roster1))))])
  /\ map merged_attendance (left_join "S1" evs roster1)
     = flat_map (fun a => repeat a (Nat.max 1 (length (join_matches roster1 a)))) evs.
Proof.
  intros evs tr1. split; [vm_compute; reflexivity|].
  apply (cycle_submits_first_five [dev1; dev2] ["S1"; "S2"] 0 1000 string zk_connect_ok
           zk_get_many zk_disconnect_ok (fun _ => erp_single roster1) (fun _ => Some roster1)
           (fun _ => erp_single_spec roster1) server_201 iso_stub
           0 dev1 "S1" evs roster1 [] tr1).
  - reflexivity.
  - reflexivity.
  - vm_compute. reflexivity.
  - apply erp_single_spec. reflexivity.
  - intros H. vm_compute in H. discriminate H.
Defined.

Lemma zero_events_skip_cycle_witness :
  fst (process_and_merge ["S1"; "S2"] 0 1000 string zk_connect_ok zk_get_by_ip
         zk_disconnect_ok (fun _ => Some roster1) [dev1; dev2] 1
         [EPrint (MProcessing "D2" "S2")])
    = Ok None
  /\ exists seg,
       cycle [dev1; dev2] ["S1"; "S2"] 0 1000 string zk_connect_ok zk_get_by_ip
             zk_disconnect_ok (fun _ => Some roster1) server_201 iso_stub 1 []
         = (Ok tt, [] ++ seg)
       /\ posts seg = []
       /\ main_loop_from [dev1; dev2] ["S1"; "S2"] 0 1000 string zk_connect_ok zk_get_by_ip
            zk_disconnect_ok (fun _ => Some roster1) server_201 iso_stub 1 []
          = main_loop_from [dev1; dev2] ["S1"; "S2"] 0 1000 string zk_connect_ok zk_get_by_ip
              zk_disconnect_ok (fun _ => Some roster1) server_201 iso_stub 2 ([] ++ seg).
Proof.
  apply (zero_events_skip_cycle [dev1; dev2] ["S1"; "S2"] 0 1000 string zk_connect_ok
           zk_get_by_ip zk_disconnect_ok (fun _ => Some roster1) server_201 iso_stub
           1 dev2 "S2" []).
  - reflexivity.
  - reflexivity.
  - vm_compute. reflexivity.
Defined.

Lemma main_loop_one_pass_witness :
  (forall i, (i < 2)%nat -> exists emp_df, fetch_employee_data_returns (erp_single roster1) emp_df)
  /\ fst (main_loop [dev1; dev2] ["S1"; "S2"] 0 1000 string zk_connect_ok zk_get_by_ip
            zk_disconnect_ok (fun _ => Some roster1) server_201 iso_stub []) = Ok tt.
Proof.
  assert (Hret : forall i, (i < 2)%nat ->
                 exists emp_df, fetch_employee_data_returns (erp_single roster1) emp_df).
  { intros i _. exists roster1. apply erp_single_spec. reflexivity. }
  split; [exact Hret|].
  apply (proj2 (proj1 (main_loop_one_pass [dev1; dev2] ["S1"; "S2"] 0 1000 string
                         zk_connect_ok zk_get_by_ip zk_disconnect_ok
                         (fun _ => erp_single roster1) (fun _ => Some roster1)
                         (fun _ => erp_single_spec roster1) server_201 iso_stub [])
                  ltac:(discriminate) Hret)).
Defined.

Lemma fetch_biometric_data_contract_witness :
  fst (fetch_biometric_data string zk_connect_ok zk_get_fails zk_disconnect_fails
         (ip dev1) 4370 180 []) = Raise (DeviceError "can't disconnect")
  /\ fst (process_and_merge ["S1"] 0 1000 string zk_connect_ok zk_get_fails
            zk_disconnect_fails (fun _ => Some roster1) [dev1] 0 []) = Ok None
  /\ cycle [dev1] ["S1"] 0 1000 string zk_connect_ok zk_get_fails zk_disconnect_fails
       (fun _ => Some roster1) server_201 iso_stub 0 []
     = (Ok tt, snd (fetch_biometric_data string zk_connect_ok zk_get_fails
                      zk_disconnect_fails (ip dev1) 4370 180
                      ([] ++ [EPrint (MProcessing (device_id dev1) "S1")]))
                 ++ [EPrint (MSkipDeviceError (device_id dev1) "S1");
                     EPrint (MSkipping (device_id dev1) "S1"); ESleep 5]).
Proof.
  assert (Hf : fst (fetch_biometric_data string zk_connect_ok zk_get_fails zk_disconnect_fails
                      (ip dev1) 4370 180 []) = Raise (DeviceError "can't disconnect"))
    by reflexivity.
  split; [exact Hf|].
  apply (proj2 (proj2 (proj2 (proj2
           (fetch_biometric_data_contract [dev1] ["S1"] 0 1000 string zk_connect_ok
              zk_get_fails zk_disconnect_fails (fun _ => Some roster1) server_201 iso_stub
              "10.0.0.1" 4370 180 []))))
           0%nat dev1 "S1" (DeviceError "can't disconnect")).
  - reflexivity.
  - reflexivity.
  - exact Hf.
Defined.

(** C1, counterexample: with a roster that lists nobody under device id
    "7" (here the empty roster that [fetch_employee_data] returns when
    ERPNext answers an empty first page, or fails), the in-range event of
    user "7" is kept by the engine with a null employee. *)
Lemma merge_keeps_null_employee_counterexample :
  fetch_employee_data_returns (erp_single []) []
  /\ process_and_merge ["S1"] 0 1000 string zk_connect_ok zk_get_by_ip zk_disconnect_ok
       (fun _ => Some []) [dev1] 0 []
     = (Ok (Some [mk_merged 1 "7" 100 1 0 "S1" None None]),
        [EConnect "10.0.0.1" 4370 180; EGetAttendance; EPrint (MFetched "10.0.0.1" 2);
         EDisconnect; EFetchEmployees])
  /\ employee (mk_merged 1 "7" 100 1 0 "S1" None None) = None.
Proof.
  split; [apply erp_single_spec; reflexivity|].
  split; vm_compute; reflexivity.
Qed.

(** C7, counterexample: with one device and an empty [SHIFT] list, the
    first pass raises [ZeroDivisionError] at line 208, before any device
    is contacted; and when every roster page of ERPNext holds a record,
    the roster query of the first cycle never returns (its outcome is
    [None]), so the loop never reaches "Process Completed.". *)
Lemma main_loop_no_exit_counterexample :
  main_loop [dev1] [] 0 1000 string zk_connect_ok zk_get_by_ip zk_disconnect_ok
    (fun _ => Some roster1) server_201 iso_stub []
  = (Raise ZeroDivisionError, [])
  /\ (forall emp_df, None = Some emp_df <-> fetch_employee_data_returns erp_endless emp_df)
  /\ main_loop [dev1] ["S1"] 0 1000 string zk_connect_ok zk_get_by_ip zk_disconnect_ok
       (fun _ => None) server_201 iso_stub []
     = (Diverge, [EPrint (MProcessing "D1" "S1"); EConnect "10.0.0.1" 4370 180;
                  EGetAttendance; EPrint (MFetched "10.0.0.1" 2); EDisconnect;
                  EFetchEmployees]).
Proof.
  split; [vm_compute; reflexivity|].
  split; [exact erp_endless_spec|].
  vm_compute. reflexivity.
Qed.

(** C8, counterexample: when [get_attendance] raises and the [disconnect]
    of the [finally] block raises too, the adapter raises instead of
    returning an empty list. *)
Lemma fetch_disconnect_raises_counterexample :
  fetch_biometric_data string zk_connect_ok zk_get_fails zk_disconnect_fails
    "10.0.0.1" 4370 180 []
  = (Raise (DeviceError "can't disconnect"),
     [EConnect "10.0.0.1" 4370 180; EGetAttendance; EPrint (MFetchError "10.0.0.1");
      EDisconnect]).
Proof. vm_compute. reflexivity. Qed.

(** ** Properties of the paginated roster query *)

Section PaginationProofs.

Variable erp_get : Z -> page_response.

(** The roster is the concatenation, in request order, of the pages at
    [limit_start = 0, 1000, 2000, ...] up to the first request that ends
    the loop: an empty [data] list, a body without [data], or a
    [RequestException]; records gathered before a failure are returned,
    not an error. *)
Theorem fetch_employee_data_pages (n : nat) (pages : nat -> list employee_rec)
    (Hpages : forall k, (k < n)%nat ->
       pages k <> [] /\ erp_get (limit_page_length * Z.of_nat k) = PageData (pages k))
    (Hstop : page_stops (erp_get (limit_page_length * Z.of_nat n))) :
  forall emp_df, fetch_employee_data_returns erp_get emp_df
                 <-> emp_df = concat (map pages (seq 0 n)).
Proof.
  intros emp_df. unfold fetch_employee_data_returns.
  pose proof (fetch_pages_from erp_get n pages Hpages Hstop n 0 [] emp_df ltac:(lia)) as H.
  simpl Z.of_nat in H. rewrite Z.mul_0_r in H. exact H.
Qed.

(** The pagination loop has no page limit: if every page is a non-empty
    [data] list, [fetch_employee_data] never returns. *)
Theorem fetch_employee_data_unbounded
    (Hall : forall k, exists rows, rows <> [] /\
              erp_get (limit_page_length * Z.of_nat k) = PageData rows) :
  ~ exists emp_df, fetch_employee_data_returns erp_get emp_df.
Proof.
  intros (emp_df & H).
  apply (fetch_pages_never_ends erp_get Hall _ _ _ H 0). reflexivity.
Qed.

End PaginationProofs.

Lemma fetch_employee_data_pages_witness :
  fetch_employee_data_returns erp_two_pages [emp1; emp2].
Proof.
  apply (proj2 (fetch_employee_data_pages erp_two_pages 2
                  (fun k => match k with O => [emp1] | _ => [emp2] end)
                  ltac:(intros k Hk; destruct k as [|[|k]];
                        [split; [discriminate|reflexivity]
                        |split; [discriminate|reflexivity]|lia])
                  ltac:(left; reflexivity)
                  [emp1; emp2])).
  reflexivity.
Defined.

Lemma fetch_employee_data_unbounded_witness :
  ~ exists emp_df, fetch_employee_data_returns erp_endless emp_df.
Proof.
  apply fetch_employee_data_unbounded.
  intros k. exists [emp1]. split; [discriminate|reflexivity].
Defined.

(** ** Properties of the Delivery Submitter *)

Section DeliveryProofs.

Variable server : nat -> payload -> post_outcome.
Variable isoformat : Z -> string.

Lemma retry_loop_after_success mr emp p fuel rc tr :
  retry_loop server mr emp p fuel rc true tr = (Ok true, tr).
Proof.
  destruct fuel; simpl; [reflexivity|].
  rewrite andb_false_r. reflexivity.
Qed.

Lemma retry_loop_bound mr emp p fuel : forall rc s tr,
  exists b seg n,
    retry_loop server mr emp p fuel rc s tr = (Ok b, tr ++ seg)
    /\ Forall delivery_event seg
    /\ posts seg = repeat p n
    /\ (n <= Z.to_nat (mr - rc))%nat.
Proof.
  induction fuel as [|fuel IH]; intros rc s tr.
  - exists s, [], 0%nat. rewrite app_nil_r. repeat split; [constructor|lia].
  - simpl.
    destruct (Z.ltb_spec rc mr) as [Hlt|Hge]; destruct s; simpl.
    2: { unfold bind at 1, post.
         destruct (server (length (posts tr)) p) as [code|] eqn:Hs.
         - unfold bind, print, sleep, emit.
           destruct (status_ok code).
           + rewrite retry_loop_after_success.
             exists true, [EPost p; EPrint (MSuccess emp)], 1%nat.
             rewrite <- app_assoc. repeat split; [repeat constructor|lia].
           + destruct (IH (rc + 1) false
                         (((tr ++ [EPost p]) ++ [EPrint (MFailStatus emp code)])
                          ++ [ESleep 2])) as (b & seg & n & -> & Hev & Hp & Hn).
             exists b, (EPost p :: EPrint (MFailStatus emp code) :: ESleep 2 :: seg), (S n).
             rewrite <- !app_assoc. split; [reflexivity|].
             split; [repeat constructor; assumption|].
             split; [simpl; rewrite Hp; reflexivity|lia].
         - unfold bind, print, sleep, emit.
           destruct (IH (rc + 1) false
                         (((tr ++ [EPost p]) ++ [EPrint (MRequestFailed emp)])
                          ++ [ESleep 2])) as (b & seg & n & -> & Hev & Hp & Hn).
           exists b, (EPost p :: EPrint (MRequestFailed emp) :: ESleep 2 :: seg), (S n).
           rewrite <- !app_assoc. split; [reflexivity|].
           split; [repeat constructor; assumption|].
           split; [simpl; rewrite Hp; reflexivity|lia]. }
    all: eexists _, [], 0%nat; unfold ret; rewrite app_nil_r;
         split; [reflexivity|]; repeat split; [constructor|lia].
Qed.

Lemma push_row_bound mr row tr :
  exists seg, push_row server isoformat mr row tr = (Ok tt, tr ++ seg)
    /\ Forall delivery_event seg
    /\ match employee row with
       | None => seg = [EPrint MSkipNaN]
       | Some emp => exists n, (n <= Z.to_nat mr)%nat
                               /\ posts seg = repeat (payload_of_row isoformat row emp) n
       end.
Proof.
  unfold push_row. destruct (employee row) as [emp|].
  - rewrite bind_unfold.
    destruct (retry_loop_bound mr emp (payload_of_row isoformat row emp) (S (Z.to_nat mr)) 0 false tr)
      as (b & seg & n & Hr & Hev & Hp & Hn).
    unfold payload_of_row in Hr. rewrite Hr. rewrite Z.sub_0_r in Hn.
    destruct b.
    + exists seg. split; [reflexivity|]. split; [exact Hev|]. eauto.
    + exists (seg ++ [EPrint (MGiveUp emp mr)]).
      unfold print, emit. rewrite app_assoc. split; [reflexivity|].
      split; [apply Forall_app; split; [exact Hev|repeat constructor]|].
      exists n. split; [exact Hn|]. rewrite posts_app, Hp. simpl. apply app_nil_r.
  - exists [EPrint MSkipNaN]. split; [reflexivity|]. split; [repeat constructor|reflexivity].
Qed.

Lemma push_data_to_erp_bound mr rows : forall tr,
  exists seg, push_data_to_erp server isoformat mr rows tr = (Ok true, tr ++ seg)
    /\ Forall delivery_event seg
    /\ (length (posts seg) <= Z.to_nat mr * length (filter has_employee rows))%nat
    /\ Forall (fun p => exists row emp, In row rows /\ employee row = Some emp
                                        /\ p = payload_of_row isoformat row emp) (posts seg).
Proof.
  induction rows as [|row rows IH]; intros tr.
  - exists []. rewrite app_nil_r. repeat split; [constructor|simpl; lia|constructor].
  - destruct (push_row_bound mr row tr) as (seg1 & H1 & Hev1 & Hrow).
    rewrite (push_data_to_erp_cons server isoformat mr row rows tr _ H1).
    destruct (IH (tr ++ seg1)) as (seg2 & H2 & Hev2 & Hlen2 & Hall2).
    exists (seg1 ++ seg2). rewrite H2, app_assoc. split; [reflexivity|].
    split; [apply Forall_app; auto|].
    rewrite posts_app, length_app. cbn [filter].
    destruct (employee row) as [emp|] eqn:He;
      assert (Hh : has_employee row = match employee row with Some _ => true | None => false end)
        by reflexivity; rewrite He in Hh; rewrite Hh.
    + destruct Hrow as (n & Hn & Hp). rewrite Hp, repeat_length.
      split; [cbn [length]; rewrite Nat.mul_succ_r; lia|].
      apply Forall_app. split.
      * apply Forall_forall. intros q Hq. apply repeat_spec in Hq. subst q.
        exists row, emp. simpl. auto.
      * eapply Forall_impl; [|exact Hall2].
        intros q (r & e & Hin & Hr & Hq). exists r, e. simpl. auto.
    + subst seg1. simpl. split; [exact Hlen2|].
      eapply Forall_impl; [|exact Hall2].
      intros q (r & e & Hin & Hr & Hq). exists r, e. simpl. auto.
Qed.

Lemma retry_loop_success_after mr emp p k : forall fuel rc tr c,
  (k < fuel)%nat -> rc + Z.of_nat k < mr ->
  (forall j, (j < k)%nat -> post_failed (server (length (posts tr) + j) p) = true) ->
  server (length (posts tr) + k) p = HTTP c -> status_ok c = true ->
  exists seg, retry_loop server mr emp p fuel rc false tr
              = (Ok true, tr ++ seg ++ [EPrint (MSuccess emp)])
    /\ posts seg = repeat p (S k).
Proof.
  induction k as [|k IH]; intros fuel rc tr c Hf Hmr Hfail Hs Hok.
  - destruct fuel as [|fuel]; [lia|]. simpl.
    destruct (Z.ltb_spec rc mr); [|lia]. simpl.
    unfold bind at 1, post. rewrite Nat.add_0_r in Hs. rewrite Hs.
    unfold bind, print, emit. rewrite Hok, retry_loop_after_success.
    exists [EPost p]. rewrite <- app_assoc. split; reflexivity.
  - destruct fuel as [|fuel]; [lia|]. simpl.
    destruct (Z.ltb_spec rc mr); [|lia]. simpl.
    unfold bind at 1, post.
    assert (H0 := Hfail 0%nat ltac:(lia)). rewrite Nat.add_0_r in H0.
    set (tr' := fun m => ((tr ++ [EPost p]) ++ [EPrint m]) ++ [ESleep 2]).
    assert (Hlen : forall m, length (posts (tr' m)) = S (length (posts tr))).
    { intros m. unfold tr'. rewrite !posts_app, !length_app. simpl. lia. }
    assert (Hrec : forall m, exists seg,
              retry_loop server mr emp p fuel (rc + 1) false (tr' m)
              = (Ok true, tr' m ++ seg ++ [EPrint (MSuccess emp)])
              /\ posts seg = repeat p (S k)).
    { intros m. apply (IH fuel (rc + 1) (tr' m) c); [lia|lia| | |exact Hok].
      - intros j Hj. rewrite Hlen.
        replace (S (length (posts tr)) + j)%nat with (length (posts tr) + S j)%nat by lia.
        apply Hfail. lia.
      - rewrite Hlen.
        replace (S (length (posts tr)) + k)%nat with (length (posts tr) + S k)%nat by lia.
        exact Hs. }
    destruct (server (length (posts tr)) p) as [code|] eqn:Hc.
    + simpl in H0. unfold status_ok. apply negb_true_iff in H0. rewrite H0.
      unfold bind, print, sleep, emit.
      destruct (Hrec (MFailStatus emp code)) as (seg & Hr & Hp).
      fold (tr' (MFailStatus emp code)). rewrite Hr.
      exists (EPost p :: EPrint (MFailStatus emp code) :: ESleep 2 :: seg).
      unfold tr'. rewrite <- !app_assoc. split; [reflexivity|].
      simpl. rewrite Hp. reflexivity.
    + unfold bind, print, sleep, emit.
      destruct (Hrec (MRequestFailed emp)) as (seg & Hr & Hp).
      fold (tr' (MRequestFailed emp)). rewrite Hr.
      exists (EPost p :: EPrint (MRequestFailed emp) :: ESleep 2 :: seg).
      unfold tr'. rewrite <- !app_assoc. split; [reflexivity|].
      simpl. rewrite Hp. reflexivity.
Qed.

End DeliveryProofs.

Section DeliveryTheorems.

Variable server : nat -> payload -> post_outcome.
Variable isoformat : Z -> string.

(** Extra (push_data_to_erp, lines 134-171): a row with an employee is
    posted at most [max_retries] times, every time with the same payload
    built from that row, and then the batch goes on with the next row. *)
Theorem push_row_attempts_bounded (max_retries : Z) (row : merged) (rows : list merged)
    (emp : string) (tr : list event) (Hemp : employee row = Some emp) :
  exists seg n,
    push_data_to_erp server isoformat max_retries (row :: rows) tr
      = push_data_to_erp server isoformat max_retries rows (tr ++ seg)
    /\ (n <= Z.to_nat max_retries)%nat
    /\ posts seg = repeat (payload_of_row isoformat row emp) n.
Proof.
  destruct (push_row_bound server isoformat max_retries row tr) as (seg & H & _ & Hrow).
  rewrite Hemp in Hrow. destruct Hrow as (n & Hn & Hp).
  exists seg, n. split; [|split; assumption].
  apply (push_data_to_erp_cons server isoformat max_retries row rows tr _ H).
Qed.

(** Extra (push_data_to_erp, lines 150-166): if the first [k] POSTs of a
    row fail (a status other than 200/201, or a [RequestException]) and
    the next one succeeds, with [k < max_retries], the row is posted
    exactly [k + 1] times and its last log line is the success message. *)
Theorem push_row_success_after_failures (max_retries : Z) (row : merged)
    (rows : list merged) (emp : string) (tr : list event) (k : nat) (code : Z)
    (Hemp : employee row = Some emp)
    (Hk : Z.of_nat k < max_retries)
    (Hfail : forall j, (j < k)%nat ->
       post_failed (server (length (posts tr) + j) (payload_of_row isoformat row emp)) = true)
    (Hcode : server (length (posts tr) + k) (payload_of_row isoformat row emp) = HTTP code)
    (Hok : status_ok code = true) :
  exists seg,
    push_data_to_erp server isoformat max_retries (row :: rows) tr
      = push_data_to_erp server isoformat max_retries rows
          (tr ++ seg ++ [EPrint (MSuccess emp)])
    /\ posts seg = repeat (payload_of_row isoformat row emp) (S k).
Proof.
  destruct (retry_loop_success_after server max_retries emp
              (payload_of_row isoformat row emp) k (S (Z.to_nat max_retries)) 0 tr code)
    as (seg & Hr & Hp); [lia|lia|exact Hfail|exact Hcode|exact Hok|].
  exists seg. split; [|exact Hp].
  apply push_data_to_erp_cons.
  unfold push_row. rewrite Hemp, bind_unfold. unfold payload_of_row in Hr.
  rewrite Hr. reflexivity.
Qed.

(** Extra (push_data_to_erp, lines 150 and 170-171): with
    [max_retries <= 0] nothing is ever posted; each row only logs, in
    order, the NaN skip or the give-up message. *)
Theorem push_nonpositive_retries_posts_nothing (max_retries : Z)
    (rows : list merged) (tr : list event) (Hmr : max_retries <= 0) :
  push_data_to_erp server isoformat max_retries rows tr
    = (Ok true, tr ++ map (fun r => EPrint (match employee r with
                                            | None => MSkipNaN
                                            | Some e => MGiveUp e max_retries
                                            end)) rows).
Proof.
  revert tr. induction rows as [|row rows IH]; intros tr.
  - rewrite app_nil_r. reflexivity.
  - assert (H : push_row server isoformat max_retries row tr
                = (Ok tt, tr ++ [EPrint (match employee row with
                                         | None => MSkipNaN
                                         | Some e => MGiveUp e max_retries
                                         end)])).
    { unfold push_row. destruct (employee row) as [emp|]; [|reflexivity].
      rewrite bind_unfold. simpl.
      destruct (Z.ltb_spec 0 max_retries); [lia|]. reflexivity. }
    rewrite (push_data_to_erp_cons server isoformat max_retries row rows tr _ H), IH.
    rewrite <- app_assoc. reflexivity.
Qed.

(** Extra (push_data_to_erp, lines 128-173): a batch only posts, prints
    and sleeps, one row after the other: a row without an employee only
    logs the NaN skip, and a row with an employee is posted at most
    [max_retries] times, each time with the payload built from that row. *)
Theorem push_data_to_erp_posts_bounded (max_retries : Z) (rows : list merged)
    (tr : list event) :
  exists segs,
    push_data_to_erp server isoformat max_retries rows tr = (Ok true, tr ++ concat segs)
    /\ Forall2 (fun row seg =>
         Forall delivery_event seg
         /\ match employee row with
            | None => seg = [EPrint MSkipNaN]
            | Some emp => exists n, (n <= Z.to_nat max_retries)%nat
                                    /\ posts seg = repeat (payload_of_row isoformat row emp) n
            end) rows segs.
Proof.
  revert tr. induction rows as [|row rows IH]; intros tr.
  - exists []. rewrite app_nil_r. split; [reflexivity|constructor].
  - destruct (push_row_bound server isoformat max_retries row tr) as (seg & H & Hev & Hrow).
    destruct (IH (tr ++ seg)) as (segs & Hrest & Hall).
    exists (seg :: segs).
    rewrite (push_data_to_erp_cons server isoformat max_retries row rows tr _ H), Hrest.
    simpl. rewrite app_assoc. split; [reflexivity|].
    constructor; [split; assumption|exact Hall].
Qed.

End DeliveryTheorems.

Lemma push_row_attempts_bounded_witness :
  employee (row_of (Some "E1") 100) = Some "E1"
  /\ exists seg n,
    push_data_to_erp server_500 iso_stub 3 [row_of (Some "E1") 100; row_of None 100] []
      = push_data_to_erp server_500 iso_stub 3 [row_of None 100] ([] ++ seg)
    /\ (n <= Z.to_nat 3)%nat
    /\ posts seg = repeat (payload_of_row iso_stub (row_of (Some "E1") 100) "E1") n.
Proof.
  split; [reflexivity|].
  apply (push_row_attempts_bounded server_500 iso_stub 3 (row_of (Some "E1") 100)
           [row_of None 100] "E1" []).
  reflexivity.
Defined.

Lemma push_row_success_after_failures_witness :
  server_fail_once 0 (payload_of_row iso_stub (row_of (Some "E1") 100) "E1") = HTTP 500
  /\ exists seg,
    push_data_to_erp server_fail_once iso_stub 3 [row_of (Some "E1") 100] []
      = push_data_to_erp server_fail_once iso_stub 3 []
          ([] ++ seg ++ [EPrint (MSuccess "E1")])
    /\ posts seg = repeat (payload_of_row iso_stub (row_of (Some "E1") 100) "E1") 2.
Proof.
  split; [reflexivity|].
  apply (push_row_success_after_failures server_fail_once iso_stub 3
           (row_of (Some "E1") 100) [] "E1" [] 1 201).
  - reflexivity.
  - lia.
  - intros j Hj. assert (j = 0%nat) as -> by lia. reflexivity.
  - reflexivity.
  - reflexivity.
Defined.

Lemma push_nonpositive_retries_posts_nothing_witness :
  push_data_to_erp server_201 iso_stub 0 [row_of (Some "E1") 100; row_of None 100] []
    = (Ok true, [EPrint (MGiveUp "E1" 0); EPrint MSkipNaN]).
Proof.
  apply (push_nonpositive_retries_posts_nothing server_201 iso_stub 0
           [row_of (Some "E1") 100; row_of None 100] []).
  lia.
Defined.

(** ** Properties of the Merge & Filter Engine and of the scheduler *)

Lemma connects_app (a b : list event) : connects (a ++ b) = connects a ++ connects b.
Proof.
  induction a as [|ev a IH]; [reflexivity|].
  destruct ev; simpl; rewrite ?IH; reflexivity.
Qed.

Lemma roster_queries_app (a b : list event) :
  roster_queries (a ++ b) = (roster_queries a + roster_queries b)%nat.
Proof.
  induction a as [|ev a IH]; [reflexivity|].
  destruct ev; simpl; rewrite ?IH; reflexivity.
Qed.

Lemma delivery_counts (seg : list event) :
  Forall delivery_event seg -> connects seg = [] /\ roster_queries seg = O.
Proof.
  induction 1 as [|ev seg Hev _ [IH1 IH2]]; [split; reflexivity|].
  destruct ev; simpl in Hev; try contradiction; simpl; auto.
Qed.

Lemma skipn_nth_error {A} (l : list A) : forall i x,
  nth_error l i = Some x -> skipn i l = x :: skipn (S i) l.
Proof.
  induction l as [|y l IH]; intros [|i] x H; simpl in *; try discriminate.
  - congruence.
  - apply IH. exact H.
Qed.

Lemma join_matches_unique (emps : list employee_rec) (d : string) :
  NoDup (device_ids emps) ->
  (length (filter (fun r => opt_string_eqb (e_attendance_device_id r) (Some d)) emps) <= 1)%nat.
Proof.
  induction emps as [|r rs IH]; intros Hnd; [simpl; lia|].
  unfold device_ids in Hnd. simpl in Hnd.
  destruct (e_attendance_device_id r) as [x|] eqn:Hr; simpl in Hnd; simpl; rewrite Hr.
  - apply NoDup_cons_iff in Hnd as [Hx Hnd].
    cbn [opt_string_eqb]. destruct (String.eqb x d) eqn:Exd.
    + apply String.eqb_eq in Exd. subst d.
      assert (Hnil : filter (fun r => opt_string_eqb (e_attendance_device_id r) (Some x)) rs = []).
      { clear IH Hnd. induction rs as [|r' rs IH']; [reflexivity|].
        simpl in Hx |- *.
        destruct (e_attendance_device_id r') as [y|] eqn:Hy; simpl in Hx |- *.
        - destruct (String.eqb_spec y x) as [->|]; [exfalso; apply Hx; left; reflexivity|].
          apply IH'. intros Hin. apply Hx. right. exact Hin.
        - apply IH'. exact Hx. }
      rewrite Hnil. simpl. lia.
    + apply IH. exact Hnd.
  - apply IH. exact Hnd.
Qed.

Section LoopProofs.

Variable devices : list device.
Variable SHIFT : list string.
Variable START_DATE END_DATE : Z.
Variable conn : Type.
Variable zk_connect : string -> Z -> Z -> zk_res conn.
Variable zk_get_attendance : conn -> zk_res (list attendance).
Variable zk_disconnect : conn -> zk_res unit.
Variable erp_get : nat -> Z -> page_response.
Variable erp_roster : nat -> option (list employee_rec).
Hypothesis erp_roster_spec :
  forall i emp_df, erp_roster i = Some emp_df <-> fetch_employee_data_returns (erp_get i) emp_df.
Variable server : nat -> payload -> post_outcome.
Variable isoformat : Z -> string.

Local Abbreviation fetch := (fetch_biometric_data conn zk_connect zk_get_attendance zk_disconnect).
Local Abbreviation merge := (process_and_merge SHIFT START_DATE END_DATE conn zk_connect
                           zk_get_attendance zk_disconnect erp_roster).
Local Abbreviation run_cycle := (cycle devices SHIFT START_DATE END_DATE conn zk_connect
                               zk_get_attendance zk_disconnect erp_roster server isoformat).
Local Abbreviation run := (main_loop devices SHIFT START_DATE END_DATE conn zk_connect
                         zk_get_attendance zk_disconnect erp_roster server isoformat).

Lemma fetch_biometric_data_counts ip0 p t : exists r seg,
  (forall tr, fetch ip0 p t tr = (r, tr ++ EConnect ip0 p t :: seg))
  /\ posts seg = [] /\ connects seg = [] /\ roster_queries seg = O.
Proof.
  unfold fetch_biometric_data.
  destruct (zk_connect ip0 p t) as [c|e].
  - destruct (zk_get_attendance c) as [atts|e];
      destruct (zk_disconnect c) as [u|e'];
      eexists; eexists; split;
      try (intros tr; rewrite <- !app_assoc; reflexivity);
      repeat split.
  - eexists; eexists; split;
      [intros tr; rewrite <- !app_assoc; reflexivity|repeat split].
Qed.

(** The roster query is made by the engine, in a cycle whose device
    returned events: the outcome of the engine in every case. *)
Lemma process_and_merge_counts devs i dev sh tr :
  nth_error devs (Nat.modulo i (length devs)) = Some dev ->
  nth_error SHIFT (Nat.modulo i (length SHIFT)) = Some sh ->
  exists r seg, merge devs i tr = (r, tr ++ seg)
    /\ connects seg = [(ip dev, 4370, 180)]
    /\ posts seg = []
    /\ roster_queries seg
       = (if returned_events (fst (fetch (ip dev) 4370 180 tr)) then 1 else 0)%nat
    /\ match r with
       | Ok None => returned_events (fst (fetch (ip dev) 4370 180 tr)) = false
       | Ok (Some rows) =>
           exists evs emp_df, fst (fetch (ip dev) 4370 180 tr) = Ok evs
             /\ returned_events (Ok evs) = true
             /\ erp_roster i = Some emp_df
             /\ rows = date_filter START_DATE END_DATE (left_join sh evs emp_df)
       | Raise _ => False
       | Diverge => returned_events (fst (fetch (ip dev) 4370 180 tr)) = true
                    /\ erp_roster i = None
       end.
Proof.
  intros Hdev Hsh.
  rewrite (process_and_merge_eq SHIFT START_DATE END_DATE conn zk_connect
             zk_get_attendance zk_disconnect erp_roster devs i dev sh tr Hdev Hsh).
  pose proof (fetch_biometric_data_returns conn zk_connect zk_get_attendance zk_disconnect
                (ip dev) 4370 180 tr) as Hret.
  destruct (fetch_biometric_data_counts (ip dev) 4370 180)
    as (r & seg & Hf & Hp & Hc & Hq).
  rewrite Hf in Hret |- *. cbn [fst] in Hret |- *.
  assert (Hcnt : forall ev, connects (seg ++ [ev]) = connects [ev]
                            /\ posts (seg ++ [ev]) = posts [ev]
                            /\ roster_queries (seg ++ [ev]) = roster_queries [ev]).
  { intros ev. rewrite connects_app, posts_app, roster_queries_app, Hc, Hp, Hq.
    repeat split. }
  destruct r as [[|a evs]|e|].
  - exists (Ok None), (EConnect (ip dev) 4370 180 :: seg ++ [EPrint (MNoData (device_id dev) sh)]).
    destruct (Hcnt (EPrint (MNoData (device_id dev) sh))) as (H1 & H2 & H3).
    rewrite <- app_assoc. split; [reflexivity|].
    cbn [connects posts roster_queries]. rewrite H1, H2, H3.
    repeat split.
  - destruct (erp_roster i) as [emp_df|] eqn:Hr.
    + exists (Ok (Some (date_filter START_DATE END_DATE (left_join sh (a :: evs) emp_df)))),
        (EConnect (ip dev) 4370 180 :: seg ++ [EFetchEmployees]).
      destruct (Hcnt EFetchEmployees) as (H1 & H2 & H3).
      rewrite <- app_assoc. split; [reflexivity|].
      cbn [connects posts roster_queries]. rewrite H1, H2, H3.
      split; [reflexivity|]. split; [reflexivity|]. split; [reflexivity|].
      exists (a :: evs), emp_df. repeat split; assumption.
    + exists Diverge, (EConnect (ip dev) 4370 180 :: seg ++ [EFetchEmployees]).
      destruct (Hcnt EFetchEmployees) as (H1 & H2 & H3).
      rewrite <- app_assoc. split; [reflexivity|].
      cbn [connects posts roster_queries]. rewrite H1, H2, H3.
      repeat split.
  - exists (Ok None),
      (EConnect (ip dev) 4370 180 :: seg ++ [EPrint (MSkipDeviceError (device_id dev) sh)]).
    destruct (Hcnt (EPrint (MSkipDeviceError (device_id dev) sh))) as (H1 & H2 & H3).
    rewrite <- app_assoc. split; [reflexivity|].
    cbn [connects posts roster_queries]. rewrite H1, H2, H3.
    repeat split.
  - contradiction Hret. reflexivity.
Qed.

Lemma cycle_counts (Hs : SHIFT <> []) i dev tr :
  nth_error devices i = Some dev -> erp_roster i <> None ->
  exists seg, run_cycle i tr = (Ok tt, tr ++ seg)
    /\ connects seg = [(ip dev, 4370, 180)]
    /\ (roster_queries seg <= 1)%nat
    /\ (length (posts seg) <= 10)%nat.
Proof.
  intros Hdev Hr.
  assert (Hdev' := Hdev). rewrite <- (nth_error_mod_small devices i dev Hdev) in Hdev'.
  destruct (nth_error_mod_some SHIFT i Hs) as (sh & Hsh).
  rewrite (cycle_eq devices SHIFT START_DATE END_DATE conn zk_connect zk_get_attendance
             zk_disconnect erp_roster server isoformat i dev sh tr Hdev' Hsh).
  destruct (process_and_merge_counts devices i dev sh
              (tr ++ [EPrint (MProcessing (device_id dev) sh)]) Hdev' Hsh)
    as (r & seg & -> & Hc & Hp & Hq & Hout).
  assert (Hq1 : (roster_queries seg <= 1)%nat)
    by (rewrite Hq; destruct (returned_events _); lia).
  destruct r as [[[|x xs]|]|e|].
  - exists ((EPrint (MProcessing (device_id dev) sh) :: seg)
              ++ [EPrint (MSkipping (device_id dev) sh); ESleep 5]).
    rewrite <- !app_assoc. split; [reflexivity|].
    rewrite connects_app, roster_queries_app, posts_app. simpl.
    rewrite Hc, Hp. split; [reflexivity|]. split; simpl; lia.
  - rewrite bind_unfold.
    destruct (push_data_to_erp_bound server isoformat 2 (firstn 5 (x :: xs))
                (((tr ++ [EPrint (MProcessing (device_id dev) sh)]) ++ seg)
                 ++ [EPrint (MFrame (firstn 5 (x :: xs)))]))
      as (seg1 & -> & Hev & Hlen & _).
    destruct (delivery_counts seg1 Hev) as [Hcs Hqs].
    unfold sleep, emit.
    exists ((EPrint (MProcessing (device_id dev) sh) :: seg)
              ++ EPrint (MFrame (firstn 5 (x :: xs))) :: seg1 ++ [ESleep 5]).
    rewrite <- !app_assoc. split; [reflexivity|].
    rewrite !connects_app, !roster_queries_app, !posts_app. simpl.
    rewrite !connects_app, !roster_queries_app, !posts_app. simpl.
    rewrite Hcs, Hqs, Hc, Hp. split; [reflexivity|].
    split; [lia|].
    rewrite ?app_nil_r. simpl.
    pose proof (filter_length_le has_employee (firstn 5 (x :: xs))).
    pose proof (firstn_le_length 5 (x :: xs)).
    lia.
  - exists ((EPrint (MProcessing (device_id dev) sh) :: seg)
              ++ [EPrint (MSkipping (device_id dev) sh); ESleep 5]).
    rewrite <- !app_assoc. split; [reflexivity|].
    rewrite connects_app, roster_queries_app, posts_app. simpl.
    rewrite Hc, Hp. split; [reflexivity|]. split; simpl; lia.
  - contradiction.
  - destruct Hout as [_ Hn]. contradiction.
Qed.

Lemma cycles_counts (Hs : SHIFT <> [])
    (Hr : forall j, (j < length devices)%nat -> erp_roster j <> None) k : forall i tr,
  (i + k <= length devices)%nat ->
  exists segs, for_each (seq i k) run_cycle tr = (Ok tt, tr ++ concat segs)
    /\ Forall2 (fun dev seg => connects seg = [(ip dev, 4370, 180)]
                               /\ (roster_queries seg <= 1)%nat
                               /\ (length (posts seg) <= 10)%nat)
               (firstn k (skipn i devices)) segs.
Proof.
  induction k as [|k IH]; intros i tr Hk.
  - exists []. simpl. rewrite app_nil_r. split; [reflexivity|constructor].
  - destruct (nth_error devices i) as [dev|] eqn:Hdev;
      [|apply nth_error_None in Hdev; lia].
    destruct (cycle_counts Hs i dev tr Hdev (Hr i ltac:(lia))) as (seg1 & Hc1 & Hcnt1).
    destruct (IH (S i) (tr ++ seg1) ltac:(lia)) as (segs & Hc2 & Hall).
    exists (seg1 :: segs). simpl. rewrite bind_unfold, Hc1, Hc2, app_assoc.
    split; [reflexivity|].
    rewrite (skipn_nth_error devices i dev Hdev). simpl.
    constructor; [exact Hcnt1|exact Hall].
Qed.

(** Extra (process_and_merge_biometric_with_employee_data, lines 86-88):
    with no device or no shift configured, the engine raises
    [ZeroDivisionError] before any device call, print or query. *)
Theorem process_and_merge_empty_config (devs : list device) (i : nat) (tr : list event)
    (Hempty : devs = [] \/ SHIFT = []) :
  merge devs i tr = (Raise ZeroDivisionError, tr).
Proof.
  unfold process_and_merge, py_mod.
  destruct devs as [|d ds].
  - reflexivity.
  - destruct Hempty as [Hd|Hs]; [discriminate|].
    destruct (nth_error_mod_some (d :: ds) i ltac:(discriminate)) as (dev & Hdev).
    cbn [length] in Hdev |- *.
    unfold bind at 1. cbn [Nat.eqb]. unfold ret at 1.
    unfold bind at 1, py_getitem. rewrite Hdev.
    unfold ret at 1, bind at 1. rewrite Hs. reflexivity.
Qed.

(** Extra (process_and_merge_biometric_with_employee_data, lines 83-125,
    with fetch_biometric_data, lines 13-26, and fetch_employee_data, lines
    30-80): once the device and the shift exist, one call connects to
    exactly one device, the selected one, on port 4370 with timeout 180;
    it never posts and never raises; it makes the roster query once if
    the device returned events and not at all otherwise; it returns
    [None] exactly when the device raised or returned no events; and it
    runs forever exactly when the device returned events and the roster
    query runs forever. *)
Theorem process_and_merge_one_device (devs : list device) (i : nat) (dev : device)
    (sh : string) (tr : list event)
    (Hdev : nth_error devs (Nat.modulo i (length devs)) = Some dev)
    (Hsh : nth_error SHIFT (Nat.modulo i (length SHIFT)) = Some sh) :
  exists r seg, merge devs i tr = (r, tr ++ seg)
    /\ connects seg = [(ip dev, 4370, 180)]
    /\ posts seg = []
    /\ (forall e, r <> Raise e)
    /\ roster_queries seg
       = (if returned_events (fst (fetch (ip dev) 4370 180 tr)) then 1 else 0)%nat
    /\ (r = Ok None <-> returned_events (fst (fetch (ip dev) 4370 180 tr)) = false)
    /\ (r = Diverge <-> returned_events (fst (fetch (ip dev) 4370 180 tr)) = true
                        /\ ~ exists emp_df, fetch_employee_data_returns (erp_get i) emp_df).
Proof.
  destruct (process_and_merge_counts devs i dev sh tr Hdev Hsh)
    as (r & seg & Hm & Hc & Hp & Hq & Hout).
  assert (Hspec : erp_roster i = None
                  <-> ~ exists emp_df, fetch_employee_data_returns (erp_get i) emp_df).
  { split.
    - intros Hn (emp_df & He). apply erp_roster_spec in He. congruence.
    - intros Hn. destruct (erp_roster i) as [emp_df|] eqn:E; [|reflexivity].
      exfalso. apply Hn. exists emp_df. apply erp_roster_spec. exact E. }
  exists r, seg. split; [exact Hm|]. split; [exact Hc|]. split; [exact Hp|].
  split; [intros e He; subst r; exact Hout|]. split; [exact Hq|].
  destruct r as [[rows|]|e|].
  - destruct Hout as (evs & emp_df & Hf & Hev & He & _).
    rewrite Hf. split; [split; [discriminate|intros H; rewrite Hev in H; discriminate]|].
    split; [discriminate|]. intros [_ Hn]. apply Hspec in Hn. congruence.
  - split; [split; [intros _; exact Hout|reflexivity]|].
    split; [discriminate|]. intros [Ht _]. rewrite Hout in Ht. discriminate.
  - contradiction.
  - destruct Hout as [Ht Hn].
    split; [split; [discriminate|intros H; rewrite Ht in H; discriminate]|].
    split; [intros _; split; [exact Ht|apply Hspec; exact Hn]|reflexivity].
Qed.

(** Extra (main_loop, lines 200-205): with no device configured the
    scheduler prints its completion message and stops, even when SHIFT is
    empty. *)
Theorem main_loop_no_devices (Hd : devices = []) (tr : list event) :
  run tr = (Ok tt, tr ++ [EPrint MCompleted]).
Proof.
  unfold main_loop. apply main_loop_from_stop. rewrite Hd. simpl. lia.
Qed.

(** Extra (main_loop, lines 200-225, with lines 13-26, 30-80, 83-125 and
    128-173): with a non-empty SHIFT and roster queries that return, a run
    is one segment per configured device, in configuration order, then
    "Process Completed."; the segment of a device connects to it exactly
    once and to no other device, makes the roster query at most once and
    at most 10 POSTs (5 rows, 2 attempts). *)
Theorem main_loop_resources (Hs : SHIFT <> [])
    (Hret : forall i, (i < length devices)%nat ->
       exists emp_df, fetch_employee_data_returns (erp_get i) emp_df)
    (tr : list event) :
  exists segs, run tr = (Ok tt, tr ++ concat segs ++ [EPrint MCompleted])
    /\ Forall2 (fun dev seg => connects seg = [(ip dev, 4370, 180)]
                               /\ (roster_queries seg <= 1)%nat
                               /\ (length (posts seg) <= 10)%nat)
               devices segs.
Proof.
  assert (Hr : forall j, (j < length devices)%nat -> erp_roster j <> None).
  { intros j Hj. destruct (Hret j Hj) as (emp_df & He).
    apply erp_roster_spec in He. congruence. }
  unfold main_loop.
  rewrite (main_loop_from_run devices SHIFT START_DATE END_DATE conn zk_connect
             zk_get_attendance zk_disconnect erp_roster server isoformat Hs Hr
             (length devices) 0 tr ltac:(lia)).
  destruct (cycles_counts Hs Hr (length devices) 0 tr ltac:(lia)) as (segs & Hc & Hall).
  rewrite bind_unfold, Hc. unfold print, emit.
  exists segs. rewrite <- app_assoc. split; [reflexivity|].
  rewrite skipn_O, firstn_all in Hall. exact Hall.
Qed.

End LoopProofs.

(** Extra (process_and_merge_biometric_with_employee_data, lines 99-113):
    every row of the left join carries the cycle's shift and one of the
    device's events; a row with an employee was joined to a roster record
    with that employee, its name and the row's device id; a row without
    one has no name either, and no roster record has its device id.  In
    particular a roster record with a null device id never joins. *)
Theorem left_join_rows_sound (sh : string) (evs : list attendance)
    (emps : list employee_rec) :
  Forall (fun r =>
      shift r = sh
      /\ In (merged_attendance r) evs
      /\ match employee r with
         | Some e => exists er, In er emps /\ e_employee er = e
                                /\ employee_name r = Some (e_employee_name er)
                                /\ e_attendance_device_id er = Some (attendance_device_id r)
         | None => employee_name r = None
                   /\ Forall (fun er => e_attendance_device_id er
                                        <> Some (attendance_device_id r)) emps
         end)
    (left_join sh evs emps).
Proof.
  apply Forall_forall. intros r Hr.
  unfold left_join in Hr. apply in_flat_map in Hr as (a & Ha & Hr).
  assert (Hmatch : forall er, In er (join_matches emps a) <->
                     In er emps /\ e_attendance_device_id er = Some (user_id a)).
  { intros er. unfold join_matches. rewrite filter_In.
    destruct (e_attendance_device_id er) as [x|]; simpl;
      [|split; intros [_ H]; discriminate].
    rewrite String.eqb_eq. split; intros [H1 H2]; split; congruence. }
  unfold left_join_one in Hr.
  destruct (join_matches emps a) as [|m ms] eqn:Hj.
  - destruct Hr as [<-|[]]. simpl.
    split; [reflexivity|]. split; [destruct a; exact Ha|].
    split; [reflexivity|].
    apply Forall_forall. intros er Her Hid.
    apply (proj2 (Hmatch er)). split; assumption.
  - apply in_map_iff in Hr as (er & <- & Her).
    simpl. split; [reflexivity|]. split; [destruct a; exact Ha|].
    apply Hmatch in Her as [Hin Hid].
    exists er. repeat split; assumption.
Qed.

(** Extra (process_and_merge_biometric_with_employee_data, line 113):
    when the roster's non-null device ids are pairwise distinct, the left
    join keeps each event exactly once, in the device's order. *)
Theorem left_join_unique_ids (sh : string) (evs : list attendance)
    (emps : list employee_rec) (Huniq : NoDup (device_ids emps)) :
  map merged_attendance (left_join sh evs emps) = evs.
Proof.
  rewrite left_join_attendance.
  induction evs as [|a evs IH]; [reflexivity|].
  cbn [flat_map]. rewrite IH.
  pose proof (join_matches_unique emps (user_id a) Huniq) as H.
  unfold join_matches.
  destruct (filter _ emps) as [|m [|m' ms]]; simpl in H |- *; [reflexivity|reflexivity|lia].
Qed.

Lemma process_and_merge_empty_config_witness :
  process_and_merge [] 0 1000 string zk_connect_ok zk_get_by_ip zk_disconnect_ok
    (fun _ => Some roster1) [dev1] 0 [] = (Raise ZeroDivisionError, []).
Proof.
  apply (process_and_merge_empty_config [] 0 1000 string zk_connect_ok zk_get_by_ip
           zk_disconnect_ok (fun _ => Some roster1) [dev1] 0 []).
  right. reflexivity.
Defined.

Lemma process_and_merge_one_device_witness :
  exists r seg,
    process_and_merge ["S1"] 0 1000 string zk_connect_ok zk_get_by_ip zk_disconnect_ok
      (fun _ => None) [dev1; dev2] 0 [] = (r, [] ++ seg)
    /\ connects seg = [(ip dev1, 4370, 180)]
    /\ posts seg = []
    /\ (forall e, r <> Raise e)
    /\ roster_queries seg
       = (if returned_events (fst (fetch_biometric_data string zk_connect_ok zk_get_by_ip
                                     zk_disconnect_ok (ip dev1) 4370 180 []))
          then 1 else 0)%nat
    /\ (r = Ok None <-> returned_events (fst (fetch_biometric_data string zk_connect_ok
                           zk_get_by_ip zk_disconnect_ok (ip dev1) 4370 180 [])) = false)
    /\ (r = Diverge <-> returned_events (fst (fetch_biometric_data string zk_connect_ok
                           zk_get_by_ip zk_disconnect_ok (ip dev1) 4370 180 [])) = true
                        /\ ~ exists emp_df, fetch_employee_data_returns erp_endless emp_df).
Proof.
  apply (process_and_merge_one_device ["S1"] 0 1000 string zk_connect_ok zk_get_by_ip
           zk_disconnect_ok (fun _ => erp_endless) (fun _ => None) (fun _ => erp_endless_spec)
           [dev1; dev2] 0 dev1 "S1" []);
    reflexivity.
Defined.

Lemma main_loop_no_devices_witness :
  main_loop [] [] 0 1000 string zk_connect_ok zk_get_by_ip zk_disconnect_ok
    (fun _ => Some roster1) server_201 iso_stub [] = (Ok tt, [EPrint MCompleted]).
Proof.
  apply (main_loop_no_devices [] [] 0 1000 string zk_connect_ok zk_get_by_ip
           zk_disconnect_ok (fun _ => Some roster1) server_201 iso_stub).
  reflexivity.
Defined.

Lemma main_loop_resources_witness :
  (forall i, (i < 2)%nat -> exists emp_df, fetch_employee_data_returns (erp_single roster1) emp_df)
  /\ exists segs,
    main_loop [dev1; dev2] ["S1"; "S2"] 0 1000 string zk_connect_ok zk_get_many
      zk_disconnect_ok (fun _ => Some roster1) server_500 iso_stub []
      = (Ok tt, [] ++ concat segs ++ [EPrint MCompleted])
    /\ Forall2 (fun dev seg => connects seg = [(ip dev, 4370, 180)]
                               /\ (roster_queries seg <= 1)%nat
                               /\ (length (posts seg) <= 10)%nat)
               [dev1; dev2] segs.
Proof.
  assert (Hret : forall i, (i < 2)%nat ->
                 exists emp_df, fetch_employee_data_returns (erp_single roster1) emp_df).
  { intros i _. exists roster1. apply erp_single_spec. reflexivity. }
  split; [exact Hret|].
  apply (main_loop_resources [dev1; dev2] ["S1"; "S2"] 0 1000 string zk_connect_ok
           zk_get_many zk_disconnect_ok (fun _ => erp_single roster1) (fun _ => Some roster1)
           (fun _ => erp_single_spec roster1) server_500 iso_stub).
  - discriminate.
  - exact Hret.
Defined.

Lemma left_join_unique_ids_witness :
  NoDup (device_ids roster3)
  /\ map merged_attendance (left_join "S1" [ev_in; ev_other; ev_late] roster3)
     = [ev_in; ev_other; ev_late].
Proof.
  assert (H : NoDup (device_ids roster3)).
  { simpl. apply NoDup_cons; [simpl; intros [H|[]]; discriminate|].
    apply NoDup_cons; [intros []|apply NoDup_nil]. }
  split; [exact H|].
  apply (left_join_unique_ids "S1" [ev_in; ev_other; ev_late] roster3 H).
Defined.
